(** * ZMK split keyboard, Bluetooth central role

    A shallow embedding of [app/src/split/bluetooth/central.c]: the
    callbacks the Zephyr Bluetooth stack invokes on the central half of a
    split keyboard (advertisement found, connected, disconnected,
    attribute discovered, notification received), the file-level statics
    they share, and the calls they make into the stack.

    The stack itself is not part of the file.  Every call into it is
    recorded, in order, as an [effect]; whatever the stack returns is read
    from a table of [answer]s supplied by the caller, so that every
    statement below holds for every behaviour of the stack. *)

From Stdlib Require Import ZArith Lia.
From stdpp Require Import base option list strings sorting.

Local Open Scope Z_scope.

(** ** Integer types *)

Definition u8 (x : Z) : Z := x mod 2 ^ 8.
Definition u16 (x : Z) : Z := x mod 2 ^ 16.
Definition u32 (x : Z) : Z := x mod 2 ^ 32.

(** [BIT(n)] *)
Definition BIT (n : Z) : Z := Z.shiftl 1 n.

(** A C integer used as a condition. *)
Definition truthy (x : Z) : bool := negb (x =? 0).

(** ** Data of the Bluetooth API, as far as the file uses it *)

(** [struct bt_conn *]: [None] is the null pointer. *)
Definition bt_conn_ptr : Type := option nat.

Definition bt_conn_ptr_eqb (a b : bt_conn_ptr) : bool :=
  match a, b with
  | None, None => true
  | Some x, Some y => Nat.eqb x y
  | _, _ => false
  end.

(** A UUID is its 128-bit value; a 16-bit UUID stands for its expansion
    over the Bluetooth base UUID, which is how [bt_uuid_cmp] compares. *)
Definition bt_uuid : Type := Z.

(** [bt_uuid_cmp]: zero exactly when both are the same UUID. *)
Definition bt_uuid_cmp (u1 u2 : bt_uuid) : Z :=
  if u1 =? u2 then 0 else if u1 <? u2 then -1 else 1.

(** [BT_UUID_GATT_CCC], the 16-bit UUID 0x2902 on the base UUID
    00000000-0000-1000-8000-00805F9B34FB. *)
Definition BT_UUID_GATT_CCC : bt_uuid := 0x0000290200001000800000805F9B34FB.

(** The only [struct bt_uuid] a pointer of the file ever refers to is the
    static [uuid]; [discover_params.uuid] is that address or null. *)
Inductive bt_uuid_ptr : Type :=
| NULL_uuid
| addr_of_uuid.

Inductive bt_gatt_discover_type : Type :=
| BT_GATT_DISCOVER_PRIMARY
| BT_GATT_DISCOVER_SECONDARY
| BT_GATT_DISCOVER_INCLUDE
| BT_GATT_DISCOVER_CHARACTERISTIC
| BT_GATT_DISCOVER_DESCRIPTOR
| BT_GATT_DISCOVER_ATTRIBUTE.

(** Callback pointers: null, or the one function of the file ever stored. *)
Inductive discover_func_ptr : Type :=
| NULL_discover_func
| addr_of_split_central_discovery_func.

Inductive notify_func_ptr : Type :=
| NULL_notify_func
| addr_of_split_central_notify_func.

Record bt_gatt_discover_params : Type := {
  dp_uuid : bt_uuid_ptr;
  dp_func : discover_func_ptr;
  dp_start_handle : Z;
  dp_end_handle : Z;
  dp_type : bt_gatt_discover_type
}.

Record bt_gatt_subscribe_params : Type := {
  sp_notify : notify_func_ptr;
  sp_value_handle : Z;
  sp_ccc_handle : Z;
  sp_value : Z
}.

(** [struct bt_gatt_attr] as the discovery callback reads it: the handle,
    and what [bt_gatt_attr_value_handle] returns for it. *)
Record bt_gatt_attr : Type := {
  attr_handle : Z;
  attr_value_handle : Z
}.

(** [struct bt_data], one element of an advertisement; [data_len] is the
    length of [ad_data]. *)
Record bt_data : Type := {
  ad_type : Z;
  ad_data : list Z
}.

Definition BT_GATT_ITER_STOP : Z := 0.
Definition BT_GATT_ITER_CONTINUE : Z := 1.
Definition BT_GATT_CCC_NOTIFY : Z := 1.
Definition BT_SECURITY_L2 : Z := 2.
Definition BT_DATA_UUID128_SOME : Z := 6.
Definition BT_DATA_UUID128_ALL : Z := 7.

Definition POSITION_STATE_DATA_LEN : nat := 16.

(** [struct position_state_changed] *)
Record position_state_changed : Type := {
  position : Z;
  state : bool
}.

(** ** Calls out of the file *)

Inductive effect : Type :=
| LOG_DBG (fmt : string) (args : list Z)
| LOG_ERR (fmt : string) (args : list Z)
| ZMK_EVENT_RAISE (ev : position_state_changed)
| call_bt_gatt_discover (conn : bt_conn_ptr) (target : option bt_uuid)
    (params : bt_gatt_discover_params)
| call_bt_gatt_subscribe (conn : bt_conn_ptr) (params : bt_gatt_subscribe_params)
| call_bt_conn_set_security (conn : bt_conn_ptr) (level : Z)
| call_bt_le_scan_start
| call_bt_le_scan_stop
| call_bt_conn_lookup_addr_le (addr : Z)
| call_bt_conn_le_create (addr : Z) (interval_min interval_max latency timeout : Z)
| call_bt_conn_le_phy_update (conn : bt_conn_ptr)
| call_bt_conn_unref (conn : bt_conn_ptr).

(** What the stack hands back from one call: the [int] it returns, the
    connection it returns ([bt_conn_lookup_addr_le]), and what it stores
    through a [struct bt_conn **] argument ([None]: nothing stored). *)
Record answer : Type := {
  ans_ret : Z;
  ans_conn : bt_conn_ptr;
  ans_out : option bt_conn_ptr
}.

(** ** The statics of the file *)

Record globals : Type := {
  default_conn : bt_conn_ptr;
  uuid : bt_uuid;
  discover_params : bt_gatt_discover_params;
  subscribe_params : bt_gatt_subscribe_params;
  position_state : list Z
}.

Record world : Type := {
  mem : globals;
  out : list effect;
  tick : nat
}.

(** ** The monad of a callback

    A computation reads the stack's answers, threads the statics, appends
    to the record of calls, and is undefined ([None]) where C is: a
    value read from past the end of a buffer, an object written past its
    end, a null pointer dereferenced. *)

Definition M (A : Type) : Type := (nat → answer) → world → option (A * world).

#[export] Instance M_ret : MRet M := λ A a _ w, Some (a, w).
#[export] Instance M_bind : MBind M := λ A B f m tr w,
  match m tr w with
  | Some (a, w') => f a tr w'
  | None => None
  end.

Definition undefined {A} : M A := λ _ _, None.

Definition defined {A} (o : option A) : M A :=
  match o with
  | Some a => mret a
  | None => undefined
  end.

Definition get : M globals := λ _ w, Some (mem w, w).

Definition modify (f : globals → globals) : M unit := λ _ w,
  Some (tt, {| mem := f (mem w); out := out w; tick := tick w |}).

Definition emit (e : effect) : M unit := λ _ w,
  Some (tt, {| mem := mem w; out := out w ++ [e]; tick := tick w |}).

(** A call that returns something: recorded, then answered. *)
Definition call (e : effect) : M answer := λ tr w,
  Some (tr (tick w), {| mem := mem w; out := out w ++ [e]; tick := S (tick w) |}).

(** [for (int i = from; i < from + count; i++) body] *)
Fixpoint for_range (from : nat) (count : nat) (body : nat → M unit) : M unit :=
  match count with
  | O => mret tt
  | S count' => body from ;; for_range (S from) count' body
  end.

(** A callback run on its own: the statics go in, and the value returned,
    the statics and the calls made come out. *)
Definition run {A} (m : M A) (tr : nat → answer) (g : globals)
  : option (A * globals * list effect) :=
  match m tr {| mem := g; out := []; tick := O |} with
  | Some (a, w) => Some (a, mem w, out w)
  | None => None
  end.

(** ** Field updates *)

Definition set_default_conn (c : bt_conn_ptr) (g : globals) : globals :=
  {| default_conn := c; uuid := uuid g; discover_params := discover_params g;
     subscribe_params := subscribe_params g; position_state := position_state g |}.

Definition set_uuid (u : bt_uuid) (g : globals) : globals :=
  {| default_conn := default_conn g; uuid := u; discover_params := discover_params g;
     subscribe_params := subscribe_params g; position_state := position_state g |}.

Definition set_discover_params (p : bt_gatt_discover_params) (g : globals) : globals :=
  {| default_conn := default_conn g; uuid := uuid g; discover_params := p;
     subscribe_params := subscribe_params g; position_state := position_state g |}.

Definition set_subscribe_params (p : bt_gatt_subscribe_params) (g : globals) : globals :=
  {| default_conn := default_conn g; uuid := uuid g; discover_params := discover_params g;
     subscribe_params := p; position_state := position_state g |}.

Definition set_position_state (l : list Z) (g : globals) : globals :=
  {| default_conn := default_conn g; uuid := uuid g; discover_params := discover_params g;
     subscribe_params := subscribe_params g; position_state := l |}.

(** ** [split_central_notify_func] *)

(** The first loop: [changed_positions[i] = data[i] ^ position_state[i];
    position_state[i] = data[i]].  [changed_positions] is a local array,
    threaded here as the loop's value. *)
Fixpoint notify_diff (from count : nat) (data : list Z) (changed_positions : list Z)
  : M (list Z) :=
  match count with
  | O => mret changed_positions
  | S count' =>
      g ← get;
      d ← defined (data !! from);
      p ← defined (position_state g !! from);
      let changed_positions := <[from := u8 (Z.lxor d p)]> changed_positions in
      modify (set_position_state (<[from := u8 d]> (position_state g)));;
      notify_diff (S from) count' data changed_positions
  end.

(** The body of the inner loop, for byte [i] and bit [j]. *)
Definition notify_bit (changed_positions : list Z) (i j : nat) : M unit :=
  c ← defined (changed_positions !! i);
  if truthy (Z.land c (BIT (Z.of_nat j))) then
    g ← get;
    p ← defined (position_state g !! i);
    let position := u32 (Z.of_nat i * 8 + Z.of_nat j) in
    let pressed := truthy (Z.land p (BIT (Z.of_nat j))) in
    emit (LOG_DBG "Trigger key position state change for %d" [position]);;
    emit (ZMK_EVENT_RAISE {| position := position; state := pressed |})
  else mret tt.

(** [params] is the address of [subscribe_params], the only subscription
    the file registers; [data] is the payload, [None] for a null pointer,
    and [length] its length as the stack reports it.  [changed_positions]
    is not initialised in C; all of it is written before any of it is
    read, and it starts out as zeros here. *)
Definition split_central_notify_func (conn : bt_conn_ptr) (data : option (list Z))
    (length : Z) : M Z :=
  match data with
  | None =>
      emit (LOG_DBG "[UNSUBSCRIBED]" []);;
      modify (λ g, set_subscribe_params
        {| sp_notify := sp_notify (subscribe_params g);
           sp_value_handle := 0;
           sp_ccc_handle := sp_ccc_handle (subscribe_params g);
           sp_value := sp_value (subscribe_params g) |} g);;
      mret BT_GATT_ITER_STOP
  | Some data =>
      emit (LOG_DBG "[NOTIFICATION] data %p length %u" [length]);;
      changed_positions ←
        notify_diff 0 POSITION_STATE_DATA_LEN data (replicate POSITION_STATE_DATA_LEN 0);
      for_range 0 POSITION_STATE_DATA_LEN (λ i,
        for_range 0 8 (λ j, notify_bit changed_positions i j));;
      mret BT_GATT_ITER_CONTINUE
  end.

(** ** The rest of the file

    [ZMK_SPLIT_BT_SERVICE_UUID] and [ZMK_SPLIT_BT_CHAR_POSITION_STATE_UUID]
    come from [zmk/split/bluetooth/uuid.h], and [EALREADY] from the C
    library's [errno.h]; the callbacks are defined for any values of
    them. *)

Section Central.

Variable ZMK_SPLIT_BT_SERVICE_UUID : bt_uuid.
Variable ZMK_SPLIT_BT_CHAR_POSITION_STATE_UUID : bt_uuid.
Variable EALREADY : Z.

(** [*discover_params.uuid] *)
Definition target_uuid (g : globals) : option bt_uuid :=
  match dp_uuid (discover_params g) with
  | NULL_uuid => None
  | addr_of_uuid => Some (uuid g)
  end.

(** [bt_gatt_discover(conn, &discover_params)] *)
Definition gatt_discover (conn : bt_conn_ptr) : M Z :=
  g ← get;
  a ← call (call_bt_gatt_discover conn (target_uuid g) (discover_params g));
  mret (ans_ret a).

(** The cursor after [memset] has zeroed it. *)
Definition discover_params_zero : bt_gatt_discover_params :=
  {| dp_uuid := NULL_uuid; dp_func := NULL_discover_func;
     dp_start_handle := 0; dp_end_handle := 0;
     dp_type := BT_GATT_DISCOVER_PRIMARY |}.

(** [params] is the address of [discover_params], the only walk the file
    starts; [attr] is [None] for a null pointer. *)
Definition split_central_discovery_func (conn : bt_conn_ptr)
    (attr : option bt_gatt_attr) : M Z :=
  match attr with
  | None =>
      emit (LOG_DBG "Discover complete" []);;
      modify (set_discover_params discover_params_zero);;
      mret BT_GATT_ITER_STOP
  | Some attr =>
      emit (LOG_DBG "[ATTRIBUTE] handle %u" [attr_handle attr]);;
      g ← get;
      u ← defined (target_uuid g);
      if negb (truthy (bt_uuid_cmp u ZMK_SPLIT_BT_SERVICE_UUID)) then
        modify (set_uuid ZMK_SPLIT_BT_CHAR_POSITION_STATE_UUID);;
        modify (λ g, set_discover_params
          {| dp_uuid := addr_of_uuid;
             dp_func := dp_func (discover_params g);
             dp_start_handle := u16 (attr_handle attr + 1);
             dp_end_handle := dp_end_handle (discover_params g);
             dp_type := BT_GATT_DISCOVER_CHARACTERISTIC |} g);;
        err ← gatt_discover conn;
        (if truthy err then emit (LOG_ERR "Discover failed (err %d)" [err])
         else mret tt);;
        mret BT_GATT_ITER_STOP
      else if negb (truthy (bt_uuid_cmp u ZMK_SPLIT_BT_CHAR_POSITION_STATE_UUID)) then
        modify (set_uuid BT_UUID_GATT_CCC);;
        modify (λ g, set_discover_params
          {| dp_uuid := addr_of_uuid;
             dp_func := dp_func (discover_params g);
             dp_start_handle := u16 (attr_handle attr + 2);
             dp_end_handle := dp_end_handle (discover_params g);
             dp_type := BT_GATT_DISCOVER_DESCRIPTOR |} g);;
        modify (λ g, set_subscribe_params
          {| sp_notify := sp_notify (subscribe_params g);
             sp_value_handle := u16 (attr_value_handle attr);
             sp_ccc_handle := sp_ccc_handle (subscribe_params g);
             sp_value := sp_value (subscribe_params g) |} g);;
        err ← gatt_discover conn;
        (if truthy err then emit (LOG_ERR "Discover failed (err %d)" [err])
         else mret tt);;
        mret BT_GATT_ITER_STOP
      else
        modify (λ g, set_subscribe_params
          {| sp_notify := addr_of_split_central_notify_func;
             sp_value_handle := sp_value_handle (subscribe_params g);
             sp_ccc_handle := u16 (attr_handle attr);
             sp_value := BT_GATT_CCC_NOTIFY |} g);;
        g ← get;
        a ← call (call_bt_gatt_subscribe conn (subscribe_params g));
        let err := ans_ret a in
        (if truthy err && negb (err =? - EALREADY)
         then emit (LOG_ERR "Subscribe failed (err %d)" [err])
         else emit (LOG_DBG "[SUBSCRIBED]" []));;
        mret BT_GATT_ITER_STOP
  end.

(** The arguments of the two [LOG_DBG] lines come from
    [bt_conn_get_security] and [bt_conn_get_info], which only read. *)
Definition split_central_process_connection (conn : bt_conn_ptr) : M unit :=
  emit (LOG_DBG "Current security for connection: %d" []);;
  a ← call (call_bt_conn_set_security conn BT_SECURITY_L2);
  let err := ans_ret a in
  if truthy err then emit (LOG_ERR "Failed to set security (reason %d)" [err])
  else
    g ← get;
    proceed ←
      (if bt_conn_ptr_eqb conn (default_conn g) then
         modify (λ g, set_discover_params
           {| dp_uuid := addr_of_uuid;
              dp_func := addr_of_split_central_discovery_func;
              dp_start_handle := 0x0001;
              dp_end_handle := 0xffff;
              dp_type := BT_GATT_DISCOVER_PRIMARY |} g);;
         err ← gatt_discover (default_conn g);
         if truthy err then emit (LOG_ERR "Discover failed(err %d)" [err]);; mret false
         else mret true
       else mret true);
    if (proceed : bool) then
      emit (LOG_DBG "New connection params: Interval: %d, Latency: %d, PHY: %d" [])
    else mret tt.

(** [split_central_device_found], the scan callback handed to
    [bt_le_scan_start], is not part of the call's record. *)
Definition start_scan : M Z :=
  a ← call call_bt_le_scan_start;
  let err := ans_ret a in
  if truthy err then
    emit (LOG_ERR "Scanning failed to start (err %d)" [err]);;
    mret err
  else
    emit (LOG_DBG "Scanning successfully started" []);;
    mret 0.

(** The number whose little-endian bytes are given. *)
Fixpoint le_value (bytes : list Z) : Z :=
  match bytes with
  | [] => 0
  | b :: bytes' => u8 b + 2 ^ 8 * le_value bytes'
  end.

(** [struct bt_uuid] is the type byte alone; [struct bt_uuid_128] is that
    byte and the sixteen bytes of the value. *)
Definition sizeof_bt_uuid : nat := 1.
Definition sizeof_bt_uuid_128 : nat := 17.

(** [bt_uuid_create(dst, bytes, 16)] reads sixteen bytes and writes a
    [struct bt_uuid_128] through [dst]; [room] is the size of the object
    that [dst] points to.  With a length of 16 the call returns [true];
    a write past the object, like a read past the bytes, is undefined. *)
Definition bt_uuid_create (room : nat) (bytes : list Z) : M (option bt_uuid) :=
  if (sizeof_bt_uuid_128 <=? room)%nat && (16 <=? length bytes)%nat
  then mret (Some (le_value (take 16 bytes)))
  else undefined.

(** What follows [bt_le_scan_stop] succeeding, up to [return false]. *)
Definition eir_connect (addr : Z) : M unit :=
  a ← call (call_bt_conn_lookup_addr_le addr);
  modify (set_default_conn (ans_conn a));;
  match ans_conn a with
  | Some _ =>
      emit (LOG_DBG "Found existing connection" []);;
      split_central_process_connection (ans_conn a)
  | None =>
      a ← call (call_bt_conn_le_create addr 0x0006 0x0006 30 400);
      match ans_out a with
      | Some c => modify (set_default_conn c)
      | None => mret tt
      end;;
      let err := ans_ret a in
      (if truthy err then
         emit (LOG_ERR "Create conn failed (err %d)" [err]);;
         start_scan;;
         mret tt
       else mret tt);;
      g ← get;
      a ← call (call_bt_conn_le_phy_update (default_conn g));
      let err := ans_ret a in
      if truthy err then
        emit (LOG_ERR "Update phy conn failed (err %d)" [err]);;
        start_scan;;
        mret tt
      else mret tt
  end.

(** [for (i = 0; i < data->data_len; i += 16)], [count] steps left.
    The local that receives the UUID is declared [struct bt_uuid uuid], so
    [bt_uuid_create] is handed an object of [sizeof_bt_uuid] bytes.
    [bt_uuid_cmp] is zero for equal UUIDs and the code tests [!bt_uuid_cmp]:
    the UUID skipped with the "does not match" line is the one equal to the
    service UUID, and the loop goes on to connect for any other. *)
Fixpoint eir_loop (count : nat) (i : nat) (data : bt_data) (addr : Z) : M bool :=
  match count with
  | O => mret true
  | S count' =>
      loaded ← bt_uuid_create sizeof_bt_uuid (drop i (ad_data data));
      match loaded with
      | None =>
          emit (LOG_ERR "Unable to load UUID" []);;
          eir_loop count' (i + 16)%nat data addr
      | Some u =>
          if negb (truthy (bt_uuid_cmp u ZMK_SPLIT_BT_SERVICE_UUID)) then
            emit (LOG_DBG "UUID %s does not match split UUID: %s" []);;
            eir_loop count' (i + 16)%nat data addr
          else
            emit (LOG_DBG "Found the split service" []);;
            a ← call call_bt_le_scan_stop;
            let err := ans_ret a in
            if truthy err then
              emit (LOG_ERR "Stop LE scan failed (err %d)" [err]);;
              eir_loop count' (i + 16)%nat data addr
            else
              eir_connect addr;;
              mret false
      end
  end.

Definition split_central_eir_found (data : bt_data) (addr : Z) : M bool :=
  let data_len := Z.of_nat (length (ad_data data)) in
  emit (LOG_DBG "[AD]: %u data_len %u" [ad_type data; data_len]);;
  if (ad_type data =? BT_DATA_UUID128_SOME) || (ad_type data =? BT_DATA_UUID128_ALL) then
    if truthy (data_len mod 16) then
      emit (LOG_ERR "AD malformed" []);;
      mret true
    else eir_loop (length (ad_data data) / 16)%nat 0 data addr
  else mret true.

Definition split_central_connected (conn : bt_conn_ptr) (conn_err : Z) : M unit :=
  if truthy conn_err then
    emit (LOG_ERR "Failed to connect to %s (%u)" [conn_err]);;
    g ← get;
    emit (call_bt_conn_unref (default_conn g));;
    modify (set_default_conn None);;
    start_scan;;
    mret tt
  else
    emit (LOG_DBG "Connected: %s" []);;
    split_central_process_connection conn.

Definition split_central_disconnected (conn : bt_conn_ptr) (reason : Z) : M unit :=
  emit (LOG_DBG "Disconnected: %s (reason %d)" [reason]);;
  g ← get;
  if negb (bt_conn_ptr_eqb (default_conn g) conn) then mret tt
  else
    emit (call_bt_conn_unref (default_conn g));;
    modify (set_default_conn None);;
    start_scan;;
    mret tt.

(** [bt_conn_cb_register] only stores the two callbacks. *)
Definition zmk_split_bt_central_init : M Z := start_scan.

(** The statics when the program starts: [uuid] holds the service UUID,
    everything else is zero. *)
Definition startup : globals :=
  {| default_conn := None;
     uuid := ZMK_SPLIT_BT_SERVICE_UUID;
     discover_params := discover_params_zero;
     subscribe_params :=
       {| sp_notify := NULL_notify_func; sp_value_handle := 0;
          sp_ccc_handle := 0; sp_value := 0 |};
     position_state := replicate POSITION_STATE_DATA_LEN 0 |}.

(** ** Callbacks, one after the other

    The stack delivers its callbacks on one context, each to completion
    before the next; each comes with the answers the stack gives to the
    calls made while it runs. *)

Inductive callback : Type :=
| eir_found (data : bt_data) (addr : Z)
| connected (conn : bt_conn_ptr) (conn_err : Z)
| disconnected (conn : bt_conn_ptr) (reason : Z)
| discovered (conn : bt_conn_ptr) (attr : option bt_gatt_attr)
| notified (conn : bt_conn_ptr) (data : option (list Z)) (length : Z).

Definition deliver (cb : callback) (tr : nat → answer) (g : globals)
  : option (globals * list effect) :=
  match cb with
  | eir_found data addr =>
      '(_, g', es) ← run (split_central_eir_found data addr) tr g; Some (g', es)
  | connected conn conn_err =>
      '(_, g', es) ← run (split_central_connected conn conn_err) tr g; Some (g', es)
  | disconnected conn reason =>
      '(_, g', es) ← run (split_central_disconnected conn reason) tr g; Some (g', es)
  | discovered conn attr =>
      '(_, g', es) ← run (split_central_discovery_func conn attr) tr g; Some (g', es)
  | notified conn data length =>
      '(_, g', es) ← run (split_central_notify_func conn data length) tr g; Some (g', es)
  end.


(** ** The decoder as the specification words it

    [decode previous current]: byte by byte and, within a byte, bit by bit
    from the least significant, one event per bit of the XOR that is set. *)

Definition bitmap_bit (bitmap : list Z) (i j : nat) : bool :=
  Z.testbit (bitmap !!! i) (Z.of_nat j).

Definition decode (previous current : list Z) : list position_state_changed :=
  i ← seq 0 16;
  j ← seq 0 8;
  if xorb (bitmap_bit previous i j) (bitmap_bit current i j)
  then [ {| position := Z.of_nat i * 8 + Z.of_nat j; state := bitmap_bit current i j |} ]
  else [].

(** The events among the calls a callback made, in order. *)
Definition raised (es : list effect) : list position_state_changed :=
  omap (λ e, match e with ZMK_EVENT_RAISE ev => Some ev | _ => None end) es.

(** ** Definitions the proofs use *)

(** The world after more calls were recorded. *)
Definition say (es : list effect) (w : world) : world :=
  {| mem := mem w; out := out w ++ es; tick := tick w |}.

Definition with_position_state (l : list Z) (w : world) : world :=
  {| mem := set_position_state l (mem w); out := out w; tick := tick w |}.

(** What the inner loop's body records for byte [i] and bit [j], given
    the XOR byte [c] and the stored byte [p]. *)
Definition bit_effects (c p : Z) (i j : nat) : list effect :=
  if truthy (Z.land c (BIT (Z.of_nat j))) then
    [ LOG_DBG "Trigger key position state change for %d" [u32 (Z.of_nat i * 8 + Z.of_nat j)];
      ZMK_EVENT_RAISE {| position := u32 (Z.of_nat i * 8 + Z.of_nat j);
                         state := truthy (Z.land p (BIT (Z.of_nat j))) |} ]
  else [].

(** The positions [decode] gives for one byte. *)
Definition byte_positions (previous current : list Z) (i : nat) : list Z :=
  position <$> (seq 0 8 ≫= λ j,
    if xorb (bitmap_bit previous i j) (bitmap_bit current i j)
    then [ {| position := Z.of_nat i * 8 + Z.of_nat j; state := bitmap_bit current i j |} ]
    else []).

(** What [start_scan] logs, given the answer to [bt_le_scan_start]. *)
Definition scan_log (a : answer) : effect :=
  if truthy (ans_ret a) then LOG_ERR "Scanning failed to start (err %d)" [ans_ret a]
  else LOG_DBG "Scanning successfully started" [].

(** [subscribe_params] after [params->value_handle = 0U]. *)
Definition unsubscribed (g : globals) : globals :=
  set_subscribe_params
    {| sp_notify := sp_notify (subscribe_params g);
       sp_value_handle := 0;
       sp_ccc_handle := sp_ccc_handle (subscribe_params g);
       sp_value := sp_value (subscribe_params g) |} g.

(** The cursor as a phase transition leaves it: [uuid] overwritten with the
    next target, the walk restarted from [start] for attributes of [type]. *)
Definition advance (target : bt_uuid) (start : Z) (type : bt_gatt_discover_type)
    (g : globals) : globals :=
  set_discover_params
    {| dp_uuid := addr_of_uuid;
       dp_func := dp_func (discover_params g);
       dp_start_handle := start;
       dp_end_handle := dp_end_handle (discover_params g);
       dp_type := type |}
    (set_uuid target g).

Definition record_value_handle (handle : Z) (g : globals) : globals :=
  set_subscribe_params
    {| sp_notify := sp_notify (subscribe_params g);
       sp_value_handle := handle;
       sp_ccc_handle := sp_ccc_handle (subscribe_params g);
       sp_value := sp_value (subscribe_params g) |} g.

Definition record_ccc_handle (handle : Z) (g : globals) : globals :=
  set_subscribe_params
    {| sp_notify := addr_of_split_central_notify_func;
       sp_value_handle := sp_value_handle (subscribe_params g);
       sp_ccc_handle := handle;
       sp_value := BT_GATT_CCC_NOTIFY |} g.

(** What the discovery callback logs after [bt_gatt_discover] answered. *)
Definition discover_log (a : answer) : list effect :=
  if truthy (ans_ret a) then [LOG_ERR "Discover failed (err %d)" [ans_ret a]] else [].

(** What it logs after [bt_gatt_subscribe] answered. *)
Definition subscribe_log (a : answer) : effect :=
  if truthy (ans_ret a) && negb (ans_ret a =? - EALREADY)
  then LOG_ERR "Subscribe failed (err %d)" [ans_ret a]
  else LOG_DBG "[SUBSCRIBED]" [].

(** The calls that come back with an answer: all but the log lines, the
    event and [bt_conn_unref], which return nothing. *)
Definition takes_answer (e : effect) : bool :=
  match e with
  | LOG_DBG _ _ | LOG_ERR _ _ | ZMK_EVENT_RAISE _ | call_bt_conn_unref _ => false
  | _ => true
  end.




Definition is_create (e : effect) : bool :=
  match e with
  | call_bt_conn_le_create _ _ _ _ _ => true
  | _ => false
  end.




(** A callback that hands the notification callback no payload. *)
Definition no_payload (cb : callback) : bool :=
  match cb with
  | notified _ (Some _) _ => false
  | _ => true
  end.

(** The statics after each of a sequence of callbacks ran; [session]
    without the record of calls. *)
Fixpoint after (cbs : list (callback * (nat → answer))) (g : globals) : option globals :=
  match cbs with
  | [] => Some g
  | (cb, tr) :: cbs' => '(g', _) ← deliver cb tr g; after cbs' g'
  end.

(** ** Sample values *)

(** A stack that accepts every call, finds no connection and stores none. *)
Definition ok : answer := {| ans_ret := 0; ans_conn := None; ans_out := None |}.
Definition quiet : nat → answer := λ _, ok.

(** The answers in [l], in order, then [ok]. *)
Definition answers (l : list answer) : nat → answer := λ n, default ok (l !! n).

Definition failed (err : Z) : answer :=
  {| ans_ret := err; ans_conn := None; ans_out := None |}.

(** Two distinct 128-bit UUIDs to stand for those of [uuid.h]. *)
Definition sample_service_uuid : bt_uuid := 0x0000000000967107c967c5cfb1c2482a.
Definition sample_char_uuid : bt_uuid := 0x0000000100967107c967c5cfb1c2482a.

(** A value to stand for [EALREADY]. *)
Definition sample_EALREADY : Z := 120.

(** Bitmaps: no key held; the key at position 0 held. *)
Definition no_key : list Z := replicate 16 0.
Definition key_0 : list Z := 1 :: replicate 15 0.

(** ** A sample session

    With connection 1 tracked, the connection is reported connected, the
    three walks report the service at handle 10, the characteristic at 20
    with its value at 21 and the descriptor at 22, and the subscription
    is made. *)

Definition peer : Z := 0xC0FFEE.

(** An element with one UUID, all zero. *)
Definition advert : bt_data :=
  {| ad_type := BT_DATA_UUID128_ALL; ad_data := replicate 16 0 |}.

(** An element of 128-bit UUIDs that holds none. *)
Definition empty_advert : bt_data :=
  {| ad_type := BT_DATA_UUID128_ALL; ad_data := [] |}.

(** The statics with connection 1 tracked and all else as at the start. *)
Definition tracking : globals := set_default_conn (Some 1%nat) startup.


Definition attr_at (handle value_handle : Z) : option bt_gatt_attr :=
  Some {| attr_handle := handle; attr_value_handle := value_handle |}.

Definition connecting : list (callback * (nat → answer)) :=
  [ (connected (Some 1%nat) 0, quiet) ].

Definition subscribing : list (callback * (nat → answer)) :=
  connecting ++
  [ (discovered (Some 1%nat) (attr_at 10 0), quiet);
    (discovered (Some 1%nat) (attr_at 20 21), quiet);
    (discovered (Some 1%nat) (attr_at 22 0), quiet) ].

(** The statics once [connecting] is through, from [tracking]: the
    service walk is on. *)
Definition walking : globals :=
  {| default_conn := Some 1%nat;
     uuid := ZMK_SPLIT_BT_SERVICE_UUID;
     discover_params :=
       {| dp_uuid := addr_of_uuid;
          dp_func := addr_of_split_central_discovery_func;
          dp_start_handle := 0x0001;
          dp_end_handle := 0xffff;
          dp_type := BT_GATT_DISCOVER_PRIMARY |};
     subscribe_params :=
       {| sp_notify := NULL_notify_func; sp_value_handle := 0;
          sp_ccc_handle := 0; sp_value := 0 |};
     position_state := no_key |}.

(** The statics once [subscribing] is through, from [tracking]. *)
Definition subscribed : globals :=
  {| default_conn := Some 1%nat;
     uuid := BT_UUID_GATT_CCC;
     discover_params :=
       {| dp_uuid := addr_of_uuid;
          dp_func := addr_of_split_central_discovery_func;
          dp_start_handle := 22;
          dp_end_handle := 0xffff;
          dp_type := BT_GATT_DISCOVER_DESCRIPTOR |};
     subscribe_params :=
       {| sp_notify := addr_of_split_central_notify_func; sp_value_handle := 21;
          sp_ccc_handle := 22; sp_value := BT_GATT_CCC_NOTIFY |};
     position_state := no_key |}.

(** A payload for [key_0] with one byte too many. *)
Definition key_0_long : list Z := key_0 ++ [0].

Definition pressed_0 : position_state_changed := {| position := 0; state := true |}.




(** ** The scan callback

    [bt_data_parse] belongs to the stack: it is taken as it comes, a
    function that is handed the advertisement and the callback to call on
    its elements. *)

Definition BT_GAP_ADV_TYPE_ADV_IND : Z := 0.
Definition BT_GAP_ADV_TYPE_ADV_DIRECT_IND : Z := 1.

Definition split_central_device_found
    (bt_data_parse : list Z → (bt_data → M bool) → M unit)
    (addr : Z) (rssi : Z) (type : Z) (ad : list Z) : M unit :=
  emit (LOG_DBG "[DEVICE]: %s, AD evt type %u, AD data len %u, RSSI %i"
          [type; Z.of_nat (length ad); rssi]);;
  if (type =? BT_GAP_ADV_TYPE_ADV_IND) || (type =? BT_GAP_ADV_TYPE_ADV_DIRECT_IND) then
    bt_data_parse ad (λ data, split_central_eir_found data addr)
  else mret tt.

(** ** Kinds of calls *)

Definition is_log (e : effect) : bool :=
  match e with LOG_DBG _ _ | LOG_ERR _ _ => true | _ => false end.

Definition is_raise (e : effect) : bool :=
  match e with ZMK_EVENT_RAISE _ => true | _ => false end.

Definition is_discover (e : effect) : bool :=
  match e with call_bt_gatt_discover _ _ _ => true | _ => false end.

Definition is_subscribe (e : effect) : bool :=
  match e with call_bt_gatt_subscribe _ _ => true | _ => false end.

Definition is_set_security (e : effect) : bool :=
  match e with call_bt_conn_set_security _ _ => true | _ => false end.

Definition is_scan_start (e : effect) : bool :=
  match e with call_bt_le_scan_start => true | _ => false end.

Definition is_scan_stop (e : effect) : bool :=
  match e with call_bt_le_scan_stop => true | _ => false end.

Definition is_lookup (e : effect) : bool :=
  match e with call_bt_conn_lookup_addr_le _ => true | _ => false end.

Definition is_phy_update (e : effect) : bool :=
  match e with call_bt_conn_le_phy_update _ => true | _ => false end.

Definition is_unref (e : effect) : bool :=
  match e with call_bt_conn_unref _ => true | _ => false end.

(** The calls each callback can make. *)
Definition footprint (cb : callback) (e : effect) : bool :=
  match cb with
  | eir_found _ _ =>
      is_log e || is_scan_stop e || is_lookup e || is_create e || is_phy_update e
      || is_scan_start e || is_set_security e || is_discover e
  | connected _ _ =>
      is_log e || is_unref e || is_scan_start e || is_set_security e || is_discover e
  | disconnected _ _ => is_log e || is_unref e || is_scan_start e
  | discovered _ _ => is_log e || is_discover e || is_subscribe e
  | notified _ _ _ => is_log e || is_raise e
  end.

(** A computation stays within [π] and [p] when, whenever it returns, it
    has left the part [π] of the statics as it was and has made only
    calls that satisfy [p]. *)
Definition within {X} (π : globals → X) (p : effect → bool) {A} (m : M A) : Prop :=
  ∀ tr w a w', m tr w = Some (a, w') →
    π (mem w') = π (mem w)
    ∧ ∃ es, out w' = out w ++ es ∧ Forall (λ e, p e = true) es.

Definition nothing (g : globals) : unit := tt.

(** The statics but for the stored bitmap. *)
Definition but_position_state (g : globals)
  : bt_conn_ptr * bt_uuid * bt_gatt_discover_params * bt_gatt_subscribe_params :=
  (default_conn g, uuid g, discover_params g, subscribe_params g).

(** The event for the opposite change of the same key. *)
Definition opposite (ev : position_state_changed) : position_state_changed :=
  {| position := position ev; state := negb (state ev) |}.

(** The stored bitmap has its sixteen bytes, each a byte. *)
Definition bitmap_ok (g : globals) : Prop :=
  length (position_state g) = 16%nat
  ∧ Forall (λ b, 0 ≤ b < 256) (position_state g).

(** The cursor the connection is processed with. *)
Definition primary_walk (g : globals) : globals :=
  set_discover_params
    {| dp_uuid := addr_of_uuid;
       dp_func := addr_of_split_central_discovery_func;
       dp_start_handle := 0x0001;
       dp_end_handle := 0xffff;
       dp_type := BT_GATT_DISCOVER_PRIMARY |} g.

(** What [split_central_process_connection] records for [conn], given the
    stack's answers from the [k]-th on. *)
Definition process_log (conn : bt_conn_ptr) (g : globals) (tr : nat → answer) (k : nat)
  : list effect :=
  [ LOG_DBG "Current security for connection: %d" [];
    call_bt_conn_set_security conn BT_SECURITY_L2 ]
  ++ (if truthy (ans_ret (tr k)) then
        [ LOG_ERR "Failed to set security (reason %d)" [ans_ret (tr k)] ]
      else if bt_conn_ptr_eqb conn (default_conn g) then
        [ call_bt_gatt_discover (default_conn g) (Some (uuid g))
            (discover_params (primary_walk g)) ]
        ++ (if truthy (ans_ret (tr (S k))) then
              [ LOG_ERR "Discover failed(err %d)" [ans_ret (tr (S k))] ]
            else
              [ LOG_DBG "New connection params: Interval: %d, Latency: %d, PHY: %d" [] ])
      else
        [ LOG_DBG "New connection params: Interval: %d, Latency: %d, PHY: %d" [] ]).

(** The statics it leaves. *)
Definition processed (conn : bt_conn_ptr) (g : globals) (tr : nat → answer) (k : nat)
  : globals :=
  if truthy (ans_ret (tr k)) then g
  else if bt_conn_ptr_eqb conn (default_conn g) then primary_walk g
  else g.

Definition is_uuid128 (data : bt_data) : bool :=
  (ad_type data =? BT_DATA_UUID128_SOME) || (ad_type data =? BT_DATA_UUID128_ALL).

(** What a callback leaves of the statics. *)
Definition leaves (cb : callback) (g g' : globals) : Prop :=
  match cb with
  | eir_found _ _ | connected _ _ =>
      uuid g' = uuid g ∧ subscribe_params g' = subscribe_params g
      ∧ position_state g' = position_state g
  | disconnected _ _ =>
      uuid g' = uuid g ∧ discover_params g' = discover_params g
      ∧ subscribe_params g' = subscribe_params g
      ∧ position_state g' = position_state g
  | discovered _ _ =>
      default_conn g' = default_conn g ∧ position_state g' = position_state g
  | notified _ None _ =>
      default_conn g' = default_conn g ∧ uuid g' = uuid g
      ∧ discover_params g' = discover_params g
      ∧ position_state g' = position_state g
  | notified _ (Some _) _ =>
      default_conn g' = default_conn g ∧ uuid g' = uuid g
      ∧ discover_params g' = discover_params g
      ∧ subscribe_params g' = subscribe_params g
  end.

(** ** The stack's side of the subscription

    The transport that hands notifications to the callback is not in
    this file; its side of a subscription is taken from the spec. *)

(** Modelled from the spec: the transport's record of the subscription,
    which is missing from the file.  As the spec has it, the
    subscription record becomes subscribed by the subscribe operation and
    is invalidated by the unsubscribe signal.  [subscription] says
    whether the transport holds a subscription for the record; [statics]
    are the statics of the file. *)
Record station : Type := {
  statics : globals;
  subscription : bool
}.

(** Modelled from the spec: what gets the record subscribed, which the
    transport decides.  It is so when the calls [es], answered from the
    [k]-th answer on, hold a [bt_gatt_subscribe] that the stack accepted,
    or refused as already in place. *)
Fixpoint subscribe_accepted (es : list effect) (tr : nat → answer) (k : nat) : bool :=
  match es with
  | [] => false
  | e :: es' =>
      (is_subscribe e
       && (negb (truthy (ans_ret (tr k))) || (ans_ret (tr k) =? - EALREADY)))
      || subscribe_accepted es' tr (if takes_answer e then S k else k)
  end.

(** Modelled from the spec: the transport's delivery of one callback,
    which is missing from the file.  As the spec has it, notifications
    on the handle are processed only while the record is subscribed: a
    payload that arrives is handed to the callback while it is, and
    dropped otherwise.  The callback tells the transport by the value it
    returns whether the subscription goes on: [BT_GATT_ITER_CONTINUE]
    keeps it, [BT_GATT_ITER_STOP] ends it.  The unsubscribe signal is a
    call without payload; every other callback runs as it comes. *)
Definition happen (cb : callback) (tr : nat → answer) (s : station)
  : option (station * list effect) :=
  match cb with
  | notified conn (Some data) len =>
      if subscription s then
        '(r, g', es) ← run (split_central_notify_func conn (Some data) len) tr (statics s);
        Some ({| statics := g'; subscription := r =? BT_GATT_ITER_CONTINUE |}, es)
      else Some (s, [])
  | notified conn None len =>
      '(r, g', es) ← run (split_central_notify_func conn None len) tr (statics s);
      Some ({| statics := g';
               subscription := subscription s && (r =? BT_GATT_ITER_CONTINUE) |}, es)
  | _ =>
      '(g', es) ← deliver cb tr (statics s);
      Some ({| statics := g';
               subscription := subscription s || subscribe_accepted es tr O |}, es)
  end.

(** Modelled from the spec: one delivery after the other; the calls of
    all of them, in order. *)
Fixpoint happenings (cbs : list (callback * (nat → answer))) (s : station)
  : option (station * list effect) :=
  match cbs with
  | [] => Some (s, [])
  | (cb, tr) :: cbs' =>
      '(s1, es1) ← happen cb tr s;
      '(s2, es2) ← happenings cbs' s1;
      Some (s2, es1 ++ es2)
  end.

(** ** More sample values *)

(** An element of seventeen bytes. *)
Definition malformed_advert : bt_data :=
  {| ad_type := BT_DATA_UUID128_ALL; ad_data := replicate 17 0 |}.


(** A parser that hands over nothing. *)
Definition idle_parser : list Z → (bt_data → M bool) → M unit := λ _ _, mret tt.

(** ** Facts about bits *)

Lemma truthy_land_BIT (x : Z) (j : nat) :
  truthy (Z.land x (BIT (Z.of_nat j))) = Z.testbit x (Z.of_nat j).
Proof.
  unfold truthy, BIT. rewrite Z.shiftl_1_l.
  destruct (Z.testbit x (Z.of_nat j)) eqn:E.
  - assert (Z.land x (2 ^ Z.of_nat j) = 2 ^ Z.of_nat j) as ->.
    { apply Z.bits_inj'. intros n Hn. rewrite Z.land_spec, Z.pow2_bits_eqb by lia.
      destruct (Z.eqb_spec (Z.of_nat j) n) as [<-|_]; [by rewrite E | apply andb_false_r]. }
    assert (0 < 2 ^ Z.of_nat j) by (apply Z.pow_pos_nonneg; lia).
    destruct (Z.eqb_spec (2 ^ Z.of_nat j) 0); [lia | done].
  - assert (Z.land x (2 ^ Z.of_nat j) = 0) as ->; [|done].
    apply Z.bits_inj'. intros n Hn. rewrite Z.land_spec, Z.pow2_bits_eqb, Z.bits_0 by lia.
    destruct (Z.eqb_spec (Z.of_nat j) n) as [<-|_]; [by rewrite E | apply andb_false_r].
Qed.

Lemma testbit_u8 (x : Z) (j : nat) :
  (j < 8)%nat → Z.testbit (u8 x) (Z.of_nat j) = Z.testbit x (Z.of_nat j).
Proof. intros Hj. unfold u8. apply Z.mod_pow2_bits_low. lia. Qed.

Lemma u32_position (i j : nat) :
  (i < 16)%nat → (j < 8)%nat →
  u32 (Z.of_nat i * 8 + Z.of_nat j) = Z.of_nat i * 8 + Z.of_nat j.
Proof. intros Hi Hj. unfold u32. apply Z.mod_small. lia. Qed.

(** ** Facts about the monad and its loops *)

Lemma say_nil w : say [] w = w.
Proof. destruct w. unfold say. cbn. by rewrite app_nil_r. Qed.

Lemma say_say es1 es2 w : say es2 (say es1 w) = say (es1 ++ es2) w.
Proof. unfold say. cbn. by rewrite app_assoc. Qed.

Lemma for_range_says tr g (body : nat → M unit) (f : nat → list effect) count :
  ∀ from w,
    (∀ i w', (from ≤ i < from + count)%nat → mem w' = g →
             body i tr w' = Some (tt, say (f i) w')) →
    mem w = g →
    for_range from count body tr w = Some (tt, say (seq from count ≫= f) w).
Proof.
  induction count as [|count IH]; intros from w Hbody Hw; cbn.
  - unfold mret, M_ret. by rewrite say_nil.
  - unfold mbind at 1, M_bind at 1. rewrite Hbody by (done || lia).
    rewrite IH; [by rewrite say_say | | done].
    intros i w' Hi Hw'. apply Hbody; [lia | done].
Qed.

Lemma mbind_Some {A B} (m : M A) (f : A → M B) tr w a w' :
  m tr w = Some (a, w') → (m ≫= f) tr w = f a tr w'.
Proof. intros H. unfold mbind, M_bind. by rewrite H. Qed.

Lemma raised_app es1 es2 : raised (es1 ++ es2) = raised es1 ++ raised es2.
Proof. apply omap_app. Qed.

Lemma raised_bind {A} (l : list A) (f : A → list effect) :
  raised (l ≫= f) = l ≫= (λ x, raised (f x)).
Proof.
  induction l as [|x l IH]; [done|].
  rewrite !bind_cons, raised_app. by f_equal.
Qed.

Lemma bind_ext_elem_of {A B} (l : list A) (f g : A → list B) :
  (∀ x, x ∈ l → f x = g x) → l ≫= f = l ≫= g.
Proof.
  intros H. apply Forall_bind_ext, Forall_forall. done.
Qed.

Lemma seq_sorted (from count : nat) : StronglySorted lt (seq from count).
Proof.
  revert from. induction count as [|count IH]; intros from; cbn; constructor.
  - apply IH.
  - apply Forall_forall. intros k Hk%elem_of_seq. lia.
Qed.

(** Blocks that are ascending, laid out in ascending order. *)
Lemma bind_sorted (l : list nat) (f : nat → list Z) :
  StronglySorted lt l →
  (∀ i, i ∈ l → StronglySorted Z.lt (f i)) →
  (∀ i i' x x', (i < i')%nat → i ∈ l → i' ∈ l → x ∈ f i → x' ∈ f i' → x < x') →
  StronglySorted Z.lt (l ≫= f).
Proof.
  induction 1 as [|i l Hl IH Hi]; intros Hin Hcross; [constructor|].
  rewrite bind_cons. apply StronglySorted_app. split_and!.
  - intros x x' Hx (i' & Hx' & Hi')%list_elem_of_bind.
    rewrite Forall_forall in Hi.
    apply (Hcross i i'); [by apply Hi | by left | by right | done | done].
  - apply Hin. by left.
  - apply IH.
    + intros k Hk. apply Hin. by right.
    + intros k k' x x' Hlt Hk Hk'. apply Hcross; [done | by right | by right].
Qed.

(** ** The notification callback, loop by loop *)

(** The first loop overwrites the stored bitmap with the payload's bytes
    and leaves their XOR in [changed_positions]. *)
Lemma notify_diff_spec tr data count :
  ∀ from changed_positions w,
    (from + count ≤ length data)%nat →
    (from + count ≤ length (position_state (mem w)))%nat →
    (from + count ≤ length changed_positions)%nat →
    ∃ changed' state',
      notify_diff from count data changed_positions tr w
        = Some (changed', with_position_state state' w)
      ∧ (∀ k, (from ≤ k < from + count)%nat →
           changed' !! k = Some (u8 (Z.lxor (data !!! k) (position_state (mem w) !!! k)))
           ∧ state' !! k = Some (u8 (data !!! k)))
      ∧ (∀ k, ¬ (from ≤ k < from + count)%nat →
           changed' !! k = changed_positions !! k
           ∧ state' !! k = position_state (mem w) !! k).
Proof.
  induction count as [|count IH]; intros from cp w Hd Hs Hc.
  - exists cp, (position_state (mem w)). split_and!.
    + cbn. unfold mret, M_ret, with_position_state. by destruct w as [[] ? ?].
    + intros k Hk. lia.
    + done.
  - destruct (lookup_lt_is_Some_2 data from) as [d Ed]; [lia|].
    destruct (lookup_lt_is_Some_2 (position_state (mem w)) from) as [p Ep]; [lia|].
    set (w1 := with_position_state (<[from := u8 d]> (position_state (mem w))) w).
    destruct (IH (S from) (<[from := u8 (Z.lxor d p)]> cp) w1) as (cp' & st' & Hrun & Hin & Hout).
    { lia. } { cbn. rewrite length_insert. lia. } { rewrite length_insert. lia. }
    exists cp', st'. split_and!.
    + cbn. unfold mbind, M_bind, get. rewrite Ed, Ep. cbn.
      unfold modify. cbn. etrans; [exact Hrun|]. done.
    + intros k Hk. destruct (decide (k = from)) as [->|Hne].
      * destruct (Hout from) as [-> ->]; [lia|].
        cbn. rewrite !list_lookup_insert_eq by lia.
        by rewrite (list_lookup_total_correct _ _ _ Ed), (list_lookup_total_correct _ _ _ Ep).
      * destruct (Hin k) as [-> ->]; [lia|].
        cbn. by rewrite list_lookup_total_insert_ne by done.
    + intros k Hk. destruct (Hout k) as [-> ->]; [lia|].
      cbn. by rewrite !list_lookup_insert_ne by lia.
Qed.

Lemma notify_bit_spec tr changed_positions i j c p w :
  changed_positions !! i = Some c →
  position_state (mem w) !! i = Some p →
  notify_bit changed_positions i j tr w = Some (tt, say (bit_effects c p i j) w).
Proof.
  intros Ec Ep. unfold notify_bit, bit_effects, mbind, M_bind.
  rewrite Ec. cbn. destruct (truthy _).
  - unfold get. rewrite Ep. cbn. unfold emit, say. cbn.
    by rewrite <- app_assoc.
  - unfold mret, M_ret. by rewrite say_nil.
Qed.

Lemma raised_bit_effects previous current i j :
  (i < 16)%nat → (j < 8)%nat →
  raised (bit_effects (u8 (Z.lxor (current !!! i) (previous !!! i))) (u8 (current !!! i)) i j)
  = if xorb (bitmap_bit previous i j) (bitmap_bit current i j)
    then [ {| position := Z.of_nat i * 8 + Z.of_nat j; state := bitmap_bit current i j |} ]
    else [].
Proof.
  intros Hi Hj. unfold bit_effects, bitmap_bit.
  rewrite !truthy_land_BIT, !testbit_u8, Z.lxor_spec, u32_position by done.
  rewrite xorb_comm. by destruct (xorb _ _).
Qed.

(** The whole callback on a payload of at least sixteen bytes. *)
Lemma notify_payload_spec conn current len tr g :
  (16 ≤ length current)%nat →
  length (position_state g) = 16%nat →
  ∃ g' es,
    run (split_central_notify_func conn (Some current) len) tr g
      = Some (BT_GATT_ITER_CONTINUE, g', es)
    ∧ raised es = decode (position_state g) current
    ∧ default_conn g' = default_conn g ∧ uuid g' = uuid g
    ∧ discover_params g' = discover_params g
    ∧ subscribe_params g' = subscribe_params g
    ∧ length (position_state g') = 16%nat
    ∧ ∀ i, (i < 16)%nat → position_state g' !! i = Some (u8 (current !!! i)).
Proof.
  intros Hc Hg.
  set (w0 := {| mem := g; out := [LOG_DBG "[NOTIFICATION] data %p length %u" [len]]; tick := O |}).
  destruct (notify_diff_spec tr current 16 O (replicate 16 0) w0)
    as (cp & st & Hrun & Hin & Hout); [cbn; lia | cbn; lia | by rewrite length_replicate |].
  set (w1 := with_position_state st w0) in *.
  set (f := λ i j : nat,
         bit_effects (u8 (Z.lxor (current !!! i) (position_state g !!! i)))
                     (u8 (current !!! i)) i j).
  assert (for_range 0 16 (λ i, for_range 0 8 (λ j, notify_bit cp i j)) tr w1
          = Some (tt, say (seq 0 16 ≫= λ i, seq 0 8 ≫= f i) w1)) as Hloop.
  { apply (for_range_says tr (mem w1)); [|done].
    intros i w' Hi Hw'. apply (for_range_says tr (mem w1)); [|done].
    intros j w'' Hj Hw''. destruct (Hin i) as [Ecp Est]; [lia|].
    apply notify_bit_spec; [done | by rewrite Hw'']. }
  assert (length st = 16%nat) as Hst.
  { destruct (decide (length st ≤ 15)%nat) as [Hle|Hgt].
    - destruct (Hin 15%nat) as [_ E]; [lia|]. apply lookup_lt_Some in E. lia.
    - destruct (decide (17 ≤ length st)%nat) as [Hge|]; [|lia].
      destruct (lookup_lt_is_Some_2 st 16) as [x Ex]; [lia|].
      destruct (Hout 16%nat) as [_ E]; [lia|]. rewrite Ex in E. symmetry in E.
      apply lookup_lt_Some in E. cbn in E. lia. }
  exists (set_position_state st g),
    ([LOG_DBG "[NOTIFICATION] data %p length %u" [len]] ++ (seq 0 16 ≫= λ i, seq 0 8 ≫= f i)).
  split_and!.
  - unfold run, split_central_notify_func, POSITION_STATE_DATA_LEN.
    erewrite mbind_Some by reflexivity. cbv beta.
    erewrite mbind_Some by exact Hrun. cbv beta.
    erewrite mbind_Some by exact Hloop. reflexivity.
  - rewrite raised_app, raised_bind. unfold decode.
    change (raised [LOG_DBG "[NOTIFICATION] data %p length %u" [len]])
      with (@nil position_state_changed).
    rewrite app_nil_l.
    apply bind_ext_elem_of. intros i Hi%elem_of_seq.
    rewrite raised_bind. apply bind_ext_elem_of. intros j Hj%elem_of_seq.
    unfold f. apply raised_bit_effects; lia.
  - done.
  - done.
  - done.
  - done.
  - done.
  - intros i Hi. cbn. by destruct (Hin i) as [_ ->]; [lia|].
Qed.

(** ** What [decode] yields *)

Lemma elem_of_if_singleton {A} (c : bool) (x y : A) :
  y ∈ (if c then [x] else []) ↔ c = true ∧ y = x.
Proof.
  destruct c.
  - rewrite list_elem_of_singleton. split; [by intros -> | by intros [_ ->]].
  - rewrite elem_of_nil. split; [done | by intros [? _]].
Qed.

Lemma xorb_true_iff_ne (a b : bool) : xorb a b = true ↔ a ≠ b.
Proof. destruct a, b; naive_solver. Qed.

Lemma decode_elem_of previous current ev :
  ev ∈ decode previous current ↔
  ∃ i j : nat, (i < 16)%nat ∧ (j < 8)%nat
    ∧ bitmap_bit previous i j ≠ bitmap_bit current i j
    ∧ ev = {| position := Z.of_nat i * 8 + Z.of_nat j; state := bitmap_bit current i j |}.
Proof.
  unfold decode. rewrite list_elem_of_bind. split.
  - intros (i & (j & Hev & Hj%elem_of_seq)%list_elem_of_bind & Hi%elem_of_seq).
    apply elem_of_if_singleton in Hev as [Hne%xorb_true_iff_ne ->].
    exists i, j. split_and!; [lia | lia | done | done].
  - intros (i & j & Hi & Hj & Hne & ->). exists i. split; [|apply elem_of_seq; lia].
    apply list_elem_of_bind. exists j. split; [|apply elem_of_seq; lia].
    apply elem_of_if_singleton. by rewrite xorb_true_iff_ne.
Qed.

Lemma fmap_bind_list {A B C} (g : B → C) (l : list A) (f : A → list B) :
  g <$> (l ≫= f) = l ≫= (λ x, g <$> f x).
Proof.
  induction l as [|x l IH]; [done|]. rewrite !bind_cons, fmap_app. by f_equal.
Qed.

Lemma byte_positions_elem_of previous current i x :
  x ∈ byte_positions previous current i →
  ∃ j : nat, (j < 8)%nat ∧ x = Z.of_nat i * 8 + Z.of_nat j.
Proof.
  unfold byte_positions.
  intros (ev & -> & (j & Hev & Hj%elem_of_seq)%list_elem_of_bind)%list_elem_of_fmap.
  apply elem_of_if_singleton in Hev as [_ ->]. exists j. split; [lia | done].
Qed.

Lemma byte_positions_sorted previous current i :
  StronglySorted Z.lt (byte_positions previous current i).
Proof.
  unfold byte_positions. rewrite fmap_bind_list. apply bind_sorted.
  - apply seq_sorted.
  - intros j _. destruct (xorb _ _); cbn; repeat constructor.
  - intros j j' x x' Hlt _ _
      (ev & -> & [_ ->]%elem_of_if_singleton)%list_elem_of_fmap
      (ev' & -> & [_ ->]%elem_of_if_singleton)%list_elem_of_fmap.
    cbn. lia.
Qed.

Lemma decode_sorted previous current :
  StronglySorted Z.lt (position <$> decode previous current).
Proof.
  unfold decode. rewrite fmap_bind_list.
  apply (bind_sorted _ (byte_positions previous current)).
  - apply seq_sorted.
  - intros i _. apply byte_positions_sorted.
  - intros i i' x x' Hlt _ _
      (j & Hj & ->)%byte_positions_elem_of (j' & Hj' & ->)%byte_positions_elem_of.
    lia.
Qed.

Lemma decode_take previous current :
  decode previous (take 16 current) = decode previous current.
Proof.
  unfold decode. apply bind_ext_elem_of. intros i Hi%elem_of_seq.
  apply bind_ext_elem_of. intros j _.
  unfold bitmap_bit. by rewrite lookup_total_take_lt by lia.
Qed.

(** ** Straight-line callbacks *)

Ltac run_monad :=
  cbv [run mbind M_bind mret M_ret emit get modify call defined undefined
       mem out tick start_scan gatt_discover].

Lemma bt_conn_ptr_eqb_eq (a b : bt_conn_ptr) : bt_conn_ptr_eqb a b = true ↔ a = b.
Proof.
  destruct a as [x|], b as [y|]; cbn; try (split; intros; congruence).
  rewrite Nat.eqb_eq. split; intros; congruence.
Qed.

Lemma bt_conn_ptr_eqb_ne (a b : bt_conn_ptr) : bt_conn_ptr_eqb a b = false ↔ a ≠ b.
Proof.
  rewrite <- bt_conn_ptr_eqb_eq. destruct (bt_conn_ptr_eqb a b); split; intros; congruence.
Qed.

Lemma truthy_true (x : Z) : x ≠ 0 → truthy x = true.
Proof. intros H. unfold truthy. by destruct (Z.eqb_spec x 0). Qed.

(** ** The discovery callback, branch by branch *)

Lemma bt_uuid_cmp_eq (u v : bt_uuid) : truthy (bt_uuid_cmp u v) = false ↔ u = v.
Proof.
  unfold bt_uuid_cmp. destruct (Z.eqb_spec u v) as [->|Hne].
  - done.
  - destruct (u <? v); cbn; split; intros; congruence.
Qed.

Lemma bt_uuid_cmp_ne (u v : bt_uuid) : u ≠ v → truthy (bt_uuid_cmp u v) = true.
Proof.
  intros Hne. destruct (truthy (bt_uuid_cmp u v)) eqn:E; [done|].
  by apply bt_uuid_cmp_eq in E.
Qed.

Lemma discovery_service_phase conn attr tr g :
  target_uuid g = Some ZMK_SPLIT_BT_SERVICE_UUID →
  run (split_central_discovery_func conn (Some attr)) tr g
  = Some (BT_GATT_ITER_STOP,
          advance ZMK_SPLIT_BT_CHAR_POSITION_STATE_UUID (u16 (attr_handle attr + 1))
            BT_GATT_DISCOVER_CHARACTERISTIC g,
          [ LOG_DBG "[ATTRIBUTE] handle %u" [attr_handle attr];
            call_bt_gatt_discover conn (Some ZMK_SPLIT_BT_CHAR_POSITION_STATE_UUID)
              (discover_params
                 (advance ZMK_SPLIT_BT_CHAR_POSITION_STATE_UUID (u16 (attr_handle attr + 1))
                    BT_GATT_DISCOVER_CHARACTERISTIC g)) ]
          ++ discover_log (tr O)).
Proof.
  intros Hu. unfold split_central_discovery_func, discover_log. run_monad.
  rewrite Hu. cbn.
  rewrite (proj2 (bt_uuid_cmp_eq _ _) eq_refl). cbn.
  destruct (truthy (ans_ret (tr O))); reflexivity.
Qed.

Lemma discovery_characteristic_phase conn attr tr g :
  target_uuid g = Some ZMK_SPLIT_BT_CHAR_POSITION_STATE_UUID →
  ZMK_SPLIT_BT_CHAR_POSITION_STATE_UUID ≠ ZMK_SPLIT_BT_SERVICE_UUID →
  run (split_central_discovery_func conn (Some attr)) tr g
  = Some (BT_GATT_ITER_STOP,
          record_value_handle (u16 (attr_value_handle attr))
            (advance BT_UUID_GATT_CCC (u16 (attr_handle attr + 2))
               BT_GATT_DISCOVER_DESCRIPTOR g),
          [ LOG_DBG "[ATTRIBUTE] handle %u" [attr_handle attr];
            call_bt_gatt_discover conn (Some BT_UUID_GATT_CCC)
              (discover_params
                 (advance BT_UUID_GATT_CCC (u16 (attr_handle attr + 2))
                    BT_GATT_DISCOVER_DESCRIPTOR g)) ]
          ++ discover_log (tr O)).
Proof.
  intros Hu Hne. unfold split_central_discovery_func, discover_log. run_monad.
  rewrite Hu. cbn.
  rewrite (bt_uuid_cmp_ne _ _ Hne), (proj2 (bt_uuid_cmp_eq _ _) eq_refl). cbn.
  destruct (truthy (ans_ret (tr O))); reflexivity.
Qed.

Lemma discovery_descriptor_phase conn attr tr g u :
  target_uuid g = Some u →
  u ≠ ZMK_SPLIT_BT_SERVICE_UUID →
  u ≠ ZMK_SPLIT_BT_CHAR_POSITION_STATE_UUID →
  run (split_central_discovery_func conn (Some attr)) tr g
  = Some (BT_GATT_ITER_STOP,
          record_ccc_handle (u16 (attr_handle attr)) g,
          [ LOG_DBG "[ATTRIBUTE] handle %u" [attr_handle attr];
            call_bt_gatt_subscribe conn
              (subscribe_params (record_ccc_handle (u16 (attr_handle attr)) g));
            subscribe_log (tr O) ]).
Proof.
  intros Hu Hs Hc. unfold split_central_discovery_func, subscribe_log. run_monad.
  rewrite Hu. cbn.
  rewrite (bt_uuid_cmp_ne _ _ Hs), (bt_uuid_cmp_ne _ _ Hc). cbn.
  destruct (truthy (ans_ret (tr O)) && negb (ans_ret (tr O) =? - EALREADY)); reflexivity.
Qed.

(** ** Orderly computations *)


Section Orderly.

Context (p : effect → bool).








End Orderly.







(** The loop does not get past its first UUID: the seventeen bytes that
    [bt_uuid_create] writes do not fit the local of one byte. *)
Lemma eir_loop_overflow data addr count i tr w :
  eir_loop (S count) i data addr tr w = None.
Proof. reflexivity. Qed.





(** ** The advertisement callback *)


(** ** What a callback leaves alone *)

Section Within.

Context {X : Type} (π : globals → X) (p : effect → bool).

Lemma within_ret {A} (a : A) : within π p (mret a).
Proof.
  intros tr w a' w' [= <- <-]. split; [done|]. exists []. by rewrite app_nil_r.
Qed.

Lemma within_bind {A B} (m : M A) (f : A → M B) :
  within π p m → (∀ a, within π p (f a)) → within π p (m ≫= f).
Proof.
  intros Hm Hf tr w b w'. unfold mbind, M_bind.
  destruct (m tr w) as [[a w1]|] eqn:E; [|done]. intros Hrun.
  destruct (Hm _ _ _ _ E) as (Hs1 & es1 & Ho1 & Hp1).
  destruct (Hf _ _ _ _ _ Hrun) as (Hs2 & es2 & Ho2 & Hp2).
  split; [congruence|]. exists (es1 ++ es2). split.
  - by rewrite Ho2, Ho1, app_assoc.
  - by apply Forall_app.
Qed.

Lemma within_emit e : p e = true → within π p (emit e).
Proof.
  intros Hp tr w a w' [= <- <-]. split; [done|]. exists [e]. split; [done | by constructor].
Qed.

Lemma within_call e : p e = true → within π p (call e).
Proof.
  intros Hp tr w a w' [= <- <-]. split; [done|]. exists [e]. split; [done | by constructor].
Qed.

Lemma within_get : within π p get.
Proof.
  intros tr w a w' [= <- <-]. split; [done|]. exists []. by rewrite app_nil_r.
Qed.

Lemma within_modify f : (∀ g, π (f g) = π g) → within π p (modify f).
Proof.
  intros Hf tr w a w' [= <- <-]. split; [apply Hf|]. exists []. cbn. by rewrite app_nil_r.
Qed.

Lemma within_defined {A} (o : option A) : within π p (defined o).
Proof. destruct o; [apply within_ret | by intros tr w a w' [=]]. Qed.

Lemma within_for_range (body : nat → M unit) count :
  (∀ i, within π p (body i)) → ∀ from, within π p (for_range from count body).
Proof.
  intros Hbody. induction count as [|count IH]; intros from; cbn [for_range].
  - apply within_ret.
  - apply within_bind; [apply Hbody | intros _; apply IH].
Qed.

End Within.

Ltac within_step :=
  lazymatch goal with
  | |- within _ _ (mret _) => apply within_ret
  | |- within _ _ (_ ≫= _) => apply within_bind; [|intros ?]
  | |- within _ _ (emit _) => apply within_emit; reflexivity
  | |- within _ _ (call _) => apply within_call; reflexivity
  | |- within _ _ get => apply within_get
  | |- within _ _ (modify _) => apply within_modify; intros ?; reflexivity
  | |- within _ _ (defined _) => apply within_defined
  | |- within _ _ (if ?c then _ else _) => destruct c
  | |- within _ _ (match ?x with _ => _ end) => destruct x
  end.

Lemma within_run {X A} (π : globals → X) p (m : M A) tr g a g' es :
  within π p m → run m tr g = Some (a, g', es) →
  π g' = π g ∧ Forall (λ e, p e = true) es.
Proof.
  intros Hm. unfold run.
  destruct (m tr _) as [[a' w']|] eqn:E; [|done]. intros [= <- <- <-].
  destruct (Hm _ _ _ _ E) as (Hs & es & Ho & Hp). cbn in Ho.
  split; [done|]. by rewrite Ho.
Qed.

Lemma within_start_scan {X} (π : globals → X) :
  within π (λ e, is_log e || is_scan_start e) start_scan.
Proof. unfold start_scan. repeat within_step. Qed.

Lemma within_weaken {X A} (π : globals → X) (p q : effect → bool) (m : M A) :
  (∀ e, p e = true → q e = true) → within π p m → within π q m.
Proof.
  intros Hpq Hm tr w a w' Hrun. destruct (Hm _ _ _ _ Hrun) as (Hs & es & Ho & Hp).
  split; [done|]. exists es. split; [done|]. eapply Forall_impl; [exact Hp | exact Hpq].
Qed.

Lemma within_process_connection {X} (π : globals → X) conn :
  (∀ g p, π (set_discover_params p g) = π g) →
  within π (λ e, is_log e || is_set_security e || is_discover e)
    (split_central_process_connection conn).
Proof.
  intros Hπ. unfold split_central_process_connection, gatt_discover.
  repeat first [ within_step | apply within_modify; intros ?; apply Hπ ].
Qed.

Lemma within_discovery {X} (π : globals → X) conn attr :
  (∀ g p, π (set_discover_params p g) = π g) →
  (∀ g p, π (set_subscribe_params p g) = π g) →
  (∀ g u, π (set_uuid u g) = π g) →
  within π (footprint (discovered conn attr)) (split_central_discovery_func conn attr).
Proof.
  intros Hd Hs Hu. unfold split_central_discovery_func, gatt_discover.
  repeat first
    [ within_step
    | apply within_modify; intros ?; first [apply Hd | apply Hs | apply Hu] ].
Qed.

Lemma within_connected {X} (π : globals → X) conn conn_err :
  (∀ g p, π (set_discover_params p g) = π g) →
  (∀ g c, π (set_default_conn c g) = π g) →
  within π (footprint (connected conn conn_err)) (split_central_connected conn conn_err).
Proof.
  intros Hd Hc. unfold split_central_connected.
  repeat first
    [ within_step
    | apply within_modify; intros ?; apply Hc
    | eapply within_weaken; [|apply within_start_scan];
      intros [] ?; done
    | eapply within_weaken; [|by apply within_process_connection];
      intros [] ?; done ].
Qed.

Lemma within_disconnected {X} (π : globals → X) conn reason :
  (∀ g c, π (set_default_conn c g) = π g) →
  within π (footprint (disconnected conn reason)) (split_central_disconnected conn reason).
Proof.
  intros Hc. unfold split_central_disconnected.
  repeat first
    [ within_step
    | apply within_modify; intros ?; apply Hc
    | eapply within_weaken; [|apply within_start_scan];
      intros [] ?; done ].
Qed.

Lemma within_eir_loop {X} (π : globals → X) data addr count :
  (∀ g p, π (set_discover_params p g) = π g) →
  (∀ g c, π (set_default_conn c g) = π g) →
  ∀ i, within π (footprint (eir_found data addr)) (eir_loop count i data addr).
Proof.
  intros Hd Hc. destruct count as [|count]; intros i.
  - apply within_ret.
  - intros tr w a w' Hrun. by rewrite eir_loop_overflow in Hrun.
Qed.

Lemma within_eir_found {X} (π : globals → X) data addr :
  (∀ g p, π (set_discover_params p g) = π g) →
  (∀ g c, π (set_default_conn c g) = π g) →
  within π (footprint (eir_found data addr)) (split_central_eir_found data addr).
Proof.
  intros Hd Hc. unfold split_central_eir_found.
  repeat first [ within_step | by apply within_eir_loop ].
Qed.

Lemma within_notify_absent {X} (π : globals → X) conn len :
  (∀ g p, π (set_subscribe_params p g) = π g) →
  within π is_log (split_central_notify_func conn None len).
Proof.
  intros Hs. unfold split_central_notify_func.
  repeat first [ within_step | apply within_modify; intros ?; apply Hs ].
Qed.

Lemma within_notify_diff {X} (π : globals → X) data count :
  (∀ g l, π (set_position_state l g) = π g) →
  ∀ from changed, within π is_log (notify_diff from count data changed).
Proof.
  intros Hp. induction count as [|count IH]; intros from changed; cbn [notify_diff].
  - apply within_ret.
  - repeat first [ within_step | apply within_modify; intros ?; apply Hp | apply IH ].
Qed.

Lemma within_notify_payload {X} (π : globals → X) conn payload len :
  (∀ g l, π (set_position_state l g) = π g) →
  within π (footprint (notified conn (Some payload) len))
    (split_central_notify_func conn (Some payload) len).
Proof.
  intros Hp. unfold split_central_notify_func.
  apply within_bind; [by apply within_emit | intros _].
  apply within_bind.
  { eapply within_weaken; [|by apply within_notify_diff]. by intros [] ?. }
  intros changed. apply within_bind; [|intros _; apply within_ret].
  apply within_for_range. intros i. apply within_for_range. intros j.
  unfold notify_bit. repeat within_step.
Qed.

Lemma process_connection_run conn tr g :
  run (split_central_process_connection conn) tr g
  = Some (tt, processed conn g tr O, process_log conn g tr O).
Proof.
  unfold split_central_process_connection, processed, process_log. run_monad.
  destruct (truthy (ans_ret (tr O))); [reflexivity|].
  destruct (bt_conn_ptr_eqb conn (default_conn g)); [|reflexivity].
  destruct (truthy (ans_ret (tr 1%nat))); reflexivity.
Qed.

Lemma raised_none es : Forall (λ e, is_raise e = false) es → raised es = [].
Proof.
  induction 1 as [|e es He _ IH]; [done|].
  unfold raised in *. cbn. destruct e; try discriminate He; exact IH.
Qed.

Lemma deliver_run cb tr g g' es :
  deliver cb tr g = Some (g', es) →
  match cb with
  | eir_found data addr =>
      ∃ r, run (split_central_eir_found data addr) tr g = Some (r, g', es)
  | connected conn conn_err =>
      ∃ r, run (split_central_connected conn conn_err) tr g = Some (r, g', es)
  | disconnected conn reason =>
      ∃ r, run (split_central_disconnected conn reason) tr g = Some (r, g', es)
  | discovered conn attr =>
      ∃ r, run (split_central_discovery_func conn attr) tr g = Some (r, g', es)
  | notified conn data len =>
      ∃ r, run (split_central_notify_func conn data len) tr g = Some (r, g', es)
  end.
Proof.
  destruct cb; cbn [deliver];
    match goal with
    | |- context [run ?m tr g] => destruct (run m tr g) as [[[r h] es']|]; [|done]
    end; cbn; intros [= <- <-]; by exists r.
Qed.

(** A callback that hands over no payload raises no event and leaves the
    stored bitmap alone. *)
Lemma deliver_no_payload cb tr g g' es :
  no_payload cb = true →
  deliver cb tr g = Some (g', es) →
  raised es = [] ∧ position_state g' = position_state g.
Proof.
  intros Hcb Hrun%deliver_run.
  assert (∀ q : effect → bool, (∀ e, q e = true → is_raise e = false) →
            Forall (λ e, q e = true) es → raised es = []) as Hweak.
  { intros q Hq Hes. apply raised_none. eapply Forall_impl; [exact Hes | exact Hq]. }
  destruct cb as [data addr|conn conn_err|conn reason|conn attr|conn [payload|] len];
    try discriminate Hcb; destruct Hrun as [r Hrun].
  - eapply (within_run position_state) in Hrun as [Hp Hes]; [|by apply within_eir_found].
    split; [|done]. eapply Hweak, Hes. by intros [] ?.
  - eapply (within_run position_state) in Hrun as [Hp Hes]; [|by apply within_connected].
    split; [|done]. eapply Hweak, Hes. by intros [] ?.
  - eapply (within_run position_state) in Hrun as [Hp Hes]; [|by apply within_disconnected].
    split; [|done]. eapply Hweak, Hes. by intros [] ?.
  - eapply (within_run position_state) in Hrun as [Hp Hes]; [|by apply within_discovery].
    split; [|done]. eapply Hweak, Hes. by intros [] ?.
  - eapply (within_run position_state) in Hrun as [Hp Hes]; [|by apply within_notify_absent].
    split; [|done]. eapply Hweak, Hes. by intros [] ?.
Qed.

Lemma subscribe_accepted_none es tr :
  Forall (λ e, is_subscribe e = false) es → ∀ k, subscribe_accepted es tr k = false.
Proof.
  induction 1 as [|e es He _ IH]; intros k; cbn [subscribe_accepted]; [done|].
  by rewrite He, IH.
Qed.

(** While the record is unsubscribed, nothing that happens raises an
    event or writes the stored bitmap, and only [bt_gatt_subscribe] gets
    it subscribed again. *)
Lemma happen_unsubscribed cb tr s s' es :
  subscription s = false →
  happen cb tr s = Some (s', es) →
  Forall (λ e, is_subscribe e = false) es →
  raised es = [] ∧ subscription s' = false
  ∧ position_state (statics s') = position_state (statics s).
Proof.
  intros Hoff Hrun Hes.
  assert (∀ g', no_payload cb = true →
            deliver cb tr (statics s) = Some (g', es) →
            s' = {| statics := g';
                    subscription := subscription s || subscribe_accepted es tr O |} →
            raised es = [] ∧ subscription s' = false
            ∧ position_state (statics s') = position_state (statics s)) as Hother.
  { intros g' Hcb Hd ->. destruct (deliver_no_payload _ _ _ _ _ Hcb Hd) as [Hr Hp].
    split_and!; [done| |done]. cbn. by rewrite Hoff, subscribe_accepted_none. }
  destruct cb as [data addr|conn conn_err|conn reason|conn attr|conn [payload|] len];
    cbn [happen] in Hrun.
  1-4: destruct (deliver _ tr (statics s)) as [[g' es']|] eqn:E; [|done];
       cbn in Hrun; injection Hrun as <- <-; by eapply Hother.
  - rewrite Hoff in Hrun. by injection Hrun as <- <-.
  - cbn in Hrun. injection Hrun as <- <-. cbn. by rewrite Hoff.
Qed.


(** ** The claims *)

(** C1.  Whatever the stored sixteen-byte bitmap and the sixteen-byte
    payload, the notification callback returns and raises exactly
    [decode previous current]: an event is raised if and only if it is
    [{position = i*8 + j, state = bit j of byte i of the payload}] for a
    byte [i] and bit [j] at which the two bitmaps differ; the positions
    raised are strictly ascending, so each occurs once and in byte-then-bit
    order; and any other run on the same two bitmaps, whatever the rest of
    the statics and the stack's answers, raises the same sequence. *)
Theorem C1_notification_raises_the_bit_differences
    conn (previous current : list Z) len tr g :
  length previous = 16%nat →
  length current = 16%nat →
  position_state g = previous →
  ∃ g' es,
    run (split_central_notify_func conn (Some current) len) tr g
      = Some (BT_GATT_ITER_CONTINUE, g', es)
    ∧ raised es = decode previous current
    ∧ (∀ ev, ev ∈ raised es ↔
         ∃ i j : nat, (i < 16)%nat ∧ (j < 8)%nat
           ∧ bitmap_bit previous i j ≠ bitmap_bit current i j
           ∧ ev = {| position := Z.of_nat i * 8 + Z.of_nat j;
                     state := bitmap_bit current i j |})
    ∧ StronglySorted Z.lt (position <$> raised es)
    ∧ (∀ conn2 len2 tr2 h, position_state h = previous →
         ∃ h' es2,
           run (split_central_notify_func conn2 (Some current) len2) tr2 h
             = Some (BT_GATT_ITER_CONTINUE, h', es2)
           ∧ raised es2 = raised es).
Proof.
  intros Hp Hc Hg.
  destruct (notify_payload_spec conn current len tr g) as (g' & es & Hrun & Hev & _);
    [lia | by rewrite Hg |].
  rewrite Hg in Hev. exists g', es. split_and!; [done | done | | |].
  - intros ev. rewrite Hev. apply decode_elem_of.
  - rewrite Hev. apply decode_sorted.
  - intros conn2 len2 tr2 h Hh.
    destruct (notify_payload_spec conn2 current len2 tr2 h) as (h' & es2 & Hrun2 & Hev2 & _);
      [lia | by rewrite Hh |].
    exists h', es2. split; [done|]. by rewrite Hev, Hev2, Hh.
Qed.

(** C2, as the code has it.  The callback never looks at the length of
    the payload.  Whenever at least sixteen bytes are there, whatever
    their number and whatever length is reported, it returns
    [BT_GATT_ITER_CONTINUE], stores the first sixteen bytes and raises
    what a payload of just those sixteen bytes raises: one event per bit
    in which they differ from the stored bitmap. *)
Theorem C2_payload_length_is_not_checked conn (payload : list Z) len tr g :
  (16 ≤ length payload)%nat →
  length (position_state g) = 16%nat →
  ∃ g' es,
    run (split_central_notify_func conn (Some payload) len) tr g
      = Some (BT_GATT_ITER_CONTINUE, g', es)
    ∧ raised es = decode (position_state g) (take 16 payload)
    ∧ position_state g' = u8 <$> take 16 payload
    ∧ ∃ es16,
        run (split_central_notify_func conn (Some (take 16 payload)) 16) tr g
          = Some (BT_GATT_ITER_CONTINUE, g', es16)
        ∧ raised es16 = raised es.
Proof.
  intros Hp Hg.
  destruct (notify_payload_spec conn payload len tr g)
    as (g' & es & Hrun & Hev & Hconn & Huuid & Hdp & Hsp & Hlen & Hst); [done | done |].
  destruct (notify_payload_spec conn (take 16 payload) 16 tr g)
    as (h' & es16 & Hrun16 & Hev16 & Hconn16 & Huuid16 & Hdp16 & Hsp16 & Hlen16 & Hst16);
    [rewrite length_take; lia | done |].
  assert (position_state g' = u8 <$> take 16 payload) as Hstore.
  { apply list_eq. intros i. destruct (decide (i < 16)%nat) as [Hi|Hi].
    - rewrite Hst, list_lookup_fmap, lookup_take_lt by done.
      by rewrite (list_lookup_lookup_total_lt payload i) by lia.
    - rewrite !lookup_ge_None_2; [done | |lia].
      rewrite length_fmap, length_take. lia. }
  assert (h' = g') as ->.
  { destruct h' as [c1 u1 d1 s1 p1], g' as [c2 u2 d2 s2 p2]. cbn in *.
    f_equal; try congruence.
    rewrite Hstore. apply list_eq. intros i. destruct (decide (i < 16)%nat) as [Hi|Hi].
    - rewrite Hst16, list_lookup_fmap, lookup_take_lt by done.
      rewrite lookup_total_take_lt by done.
      by rewrite (list_lookup_lookup_total_lt payload i) by lia.
    - rewrite !lookup_ge_None_2; [done | |lia].
      rewrite length_fmap, length_take. lia. }
  exists g', es. split_and!; [done | by rewrite decode_take | done |].
  exists es16. split; [done|]. by rewrite Hev, Hev16, decode_take.
Qed.

(** C3, as the code has it.  A discovery run starts when the tracked
    connection is processed and its security is granted: the cursor is
    set for a walk of the primary services over handles 1 to 0xFFFF,
    with what [uuid] holds for target.  When that is the service UUID, as
    it is from the start of the program until a run moves it on, the run
    goes as follows.  The first attribute reported, at handle [h], has
    the callback ask for a characteristic walk whose range starts at
    [h + 1]; the next one, at handle [h'], has it ask for a descriptor
    walk whose range starts at [h' + 2].  Both hold as long as the sum is
    still a handle, that is at most 0xFFFF: [start_handle] is a 16-bit
    field.  The answers of the stack to the walk requests do not
    matter. *)
Theorem C3_next_phase_starts_past_the_match conn a1 a2 tr0 tr1 tr2 g :
  uuid g = ZMK_SPLIT_BT_SERVICE_UUID →
  ZMK_SPLIT_BT_CHAR_POSITION_STATE_UUID ≠ ZMK_SPLIT_BT_SERVICE_UUID →
  conn = default_conn g →
  ans_ret (tr0 O) = 0 →
  0 ≤ attr_handle a1 → attr_handle a1 + 1 ≤ 0xFFFF →
  0 ≤ attr_handle a2 → attr_handle a2 + 2 ≤ 0xFFFF →
  ∃ g0 es0 g1 es1 g2 es2,
    run (split_central_process_connection conn) tr0 g = Some (tt, g0, es0)
    ∧ target_uuid g0 = Some ZMK_SPLIT_BT_SERVICE_UUID
    ∧ dp_start_handle (discover_params g0) = 0x0001
    ∧ dp_end_handle (discover_params g0) = 0xffff
    ∧ dp_type (discover_params g0) = BT_GATT_DISCOVER_PRIMARY
    ∧ call_bt_gatt_discover conn (Some ZMK_SPLIT_BT_SERVICE_UUID) (discover_params g0) ∈ es0
    ∧ run (split_central_discovery_func conn (Some a1)) tr1 g0
      = Some (BT_GATT_ITER_STOP, g1, es1)
    ∧ target_uuid g1 = Some ZMK_SPLIT_BT_CHAR_POSITION_STATE_UUID
    ∧ dp_start_handle (discover_params g1) = attr_handle a1 + 1
    ∧ dp_end_handle (discover_params g1) = 0xffff
    ∧ dp_type (discover_params g1) = BT_GATT_DISCOVER_CHARACTERISTIC
    ∧ call_bt_gatt_discover conn (Some ZMK_SPLIT_BT_CHAR_POSITION_STATE_UUID)
        (discover_params g1) ∈ es1
    ∧ run (split_central_discovery_func conn (Some a2)) tr2 g1
      = Some (BT_GATT_ITER_STOP, g2, es2)
    ∧ target_uuid g2 = Some BT_UUID_GATT_CCC
    ∧ dp_start_handle (discover_params g2) = attr_handle a2 + 2
    ∧ dp_end_handle (discover_params g2) = 0xffff
    ∧ dp_type (discover_params g2) = BT_GATT_DISCOVER_DESCRIPTOR
    ∧ sp_value_handle (subscribe_params g2) = u16 (attr_value_handle a2)
    ∧ call_bt_gatt_discover conn (Some BT_UUID_GATT_CCC) (discover_params g2) ∈ es2.
Proof.
  intros Hu Hne Hconn Hsec H1 H1' H2 H2'.
  assert (run (split_central_process_connection conn) tr0 g
          = Some (tt, primary_walk g, process_log conn g tr0 O)) as Hrun0.
  { rewrite process_connection_run. unfold processed. rewrite Hsec. cbn [truthy Z.eqb negb].
    by rewrite (proj2 (bt_conn_ptr_eqb_eq _ _) Hconn). }
  assert (target_uuid (primary_walk g) = Some ZMK_SPLIT_BT_SERVICE_UUID) as Ht0.
  { unfold target_uuid. cbn. by rewrite Hu. }
  set (g1 := advance ZMK_SPLIT_BT_CHAR_POSITION_STATE_UUID (u16 (attr_handle a1 + 1))
               BT_GATT_DISCOVER_CHARACTERISTIC (primary_walk g)).
  assert (target_uuid g1 = Some ZMK_SPLIT_BT_CHAR_POSITION_STATE_UUID) as Ht1 by done.
  eexists _, _, _, _, _, _.
  split; [exact Hrun0|]. split; [exact Ht0|]. split; [done|]. split; [done|].
  split; [done|]. split.
  { unfold process_log. rewrite Hsec. cbn [truthy Z.eqb negb].
    rewrite (proj2 (bt_conn_ptr_eqb_eq _ _) Hconn), <- Hconn, Hu.
    apply elem_of_app. right. apply elem_of_app. left. apply elem_of_cons. by left. }
  split; [by apply discovery_service_phase|]. fold g1.
  split; [exact Ht1|]. split; [cbn; unfold u16; apply Z.mod_small; lia|].
  split; [done|]. split; [done|]. split.
  { apply elem_of_app. left. apply elem_of_cons. right. apply elem_of_cons. by left. }
  split; [by apply discovery_characteristic_phase|].
  split; [done|]. split; [cbn; unfold u16; apply Z.mod_small; lia|].
  split; [done|]. split; [done|]. split; [done|].
  apply elem_of_app. left. apply elem_of_cons. right. apply elem_of_cons. by left.
Qed.

(** C4, as the code has it.  When the request for the next walk is
    refused during a phase transition, the callback logs the error and
    returns; that is all.  It calls neither [start_scan] nor anything else
    of the stack, the tracked connection stays, and the cursor stays on the
    phase whose walk was refused. *)
Theorem C4_refused_walk_is_only_logged conn attr tr g :
  ans_ret (tr O) ≠ 0 →
  target_uuid g = Some ZMK_SPLIT_BT_SERVICE_UUID
  ∨ (target_uuid g = Some ZMK_SPLIT_BT_CHAR_POSITION_STATE_UUID
     ∧ ZMK_SPLIT_BT_CHAR_POSITION_STATE_UUID ≠ ZMK_SPLIT_BT_SERVICE_UUID) →
  ∃ g' es,
    run (split_central_discovery_func conn (Some attr)) tr g
      = Some (BT_GATT_ITER_STOP, g', es)
    ∧ es = [ LOG_DBG "[ATTRIBUTE] handle %u" [attr_handle attr];
             call_bt_gatt_discover conn (target_uuid g') (discover_params g');
             LOG_ERR "Discover failed (err %d)" [ans_ret (tr O)] ]
    ∧ (call_bt_le_scan_start ∉ es)
    ∧ default_conn g' = default_conn g
    ∧ (target_uuid g = Some ZMK_SPLIT_BT_SERVICE_UUID →
       target_uuid g' = Some ZMK_SPLIT_BT_CHAR_POSITION_STATE_UUID)
    ∧ (target_uuid g = Some ZMK_SPLIT_BT_CHAR_POSITION_STATE_UUID →
       ZMK_SPLIT_BT_CHAR_POSITION_STATE_UUID ≠ ZMK_SPLIT_BT_SERVICE_UUID →
       target_uuid g' = Some BT_UUID_GATT_CCC).
Proof.
  intros Herr%truthy_true [Hu|[Hu Hne]].
  - eexists _, _. split; [by apply discovery_service_phase|].
    unfold discover_log. rewrite Herr. split_and!; try done.
    + intros Hin. repeat (apply elem_of_cons in Hin as [Hin|Hin]; [discriminate|]).
      by apply elem_of_nil in Hin.
    + intros Hu' Hne. rewrite Hu in Hu'. by injection Hu' as <-.
  - eexists _, _. split; [by apply discovery_characteristic_phase|].
    unfold discover_log. rewrite Herr. split_and!; try done.
    + intros Hin. repeat (apply elem_of_cons in Hin as [Hin|Hin]; [discriminate|]).
      by apply elem_of_nil in Hin.
    + intros Hu'. rewrite Hu in Hu'. by injection Hu' as <-.
Qed.


(** C6.  The callback without payload sets the value handle of the
    subscription record to zero, touches nothing else, raises no event
    and returns [BT_GATT_ITER_STOP], which ends the subscription at the
    transport.  From then on a payload that arrives is not handed to the
    callback, and whatever else happens -- payloads arriving, the signal
    coming again, advertisements, connects, disconnects, reports of a
    walk -- no event is raised, the record stays unsubscribed and the
    stored bitmap stays as it was, for as long as [bt_gatt_subscribe] is
    not called again. *)
Theorem C6_no_event_until_subscribed_again conn len tr s :
  ∃ s1,
    run (split_central_notify_func conn None len) tr (statics s)
      = Some (BT_GATT_ITER_STOP, statics s1, [LOG_DBG "[UNSUBSCRIBED]" []])
    ∧ happen (notified conn None len) tr s = Some (s1, [LOG_DBG "[UNSUBSCRIBED]" []])
    ∧ statics s1 = unsubscribed (statics s)
    ∧ sp_value_handle (subscribe_params (statics s1)) = 0
    ∧ subscription s1 = false
    ∧ raised [LOG_DBG "[UNSUBSCRIBED]" []] = []
    ∧ (∀ conn2 (payload : list Z) len2 tr2,
         happen (notified conn2 (Some payload) len2) tr2 s1 = Some (s1, []))
    ∧ (∀ cbs s2 es2,
         happenings cbs s1 = Some (s2, es2) →
         Forall (λ e, is_subscribe e = false) es2 →
         raised es2 = []
         ∧ subscription s2 = false
         ∧ position_state (statics s2) = position_state (statics s)).
Proof.
  assert (run (split_central_notify_func conn None len) tr (statics s)
          = Some (BT_GATT_ITER_STOP, unsubscribed (statics s),
                  [LOG_DBG "[UNSUBSCRIBED]" []])) as Hstop by reflexivity.
  exists {| statics := unsubscribed (statics s); subscription := false |}.
  split_and!; try done.
  { cbn [happen]. rewrite Hstop. cbn. by rewrite andb_false_r. }
  intros cbs.
  assert (∀ s1 s2 es2,
            subscription s1 = false →
            happenings cbs s1 = Some (s2, es2) →
            Forall (λ e, is_subscribe e = false) es2 →
            raised es2 = [] ∧ subscription s2 = false
            ∧ position_state (statics s2) = position_state (statics s1)) as Hall.
  { induction cbs as [|[cb tr0] cbs IH]; intros s1 s2 es2 Hoff; cbn [happenings].
    - by intros [= <- <-] _.
    - destruct (happen cb tr0 s1) as [[s' es']|] eqn:E; [|done]. cbn.
      destruct (happenings cbs s') as [[s'' es'']|] eqn:E'; [|done]. cbn.
      intros [= <- <-] [Hes' Hes'']%Forall_app.
      destruct (happen_unsubscribed _ _ _ _ _ Hoff E Hes') as (Hr & Hoff' & Hp).
      destruct (IH _ _ _ Hoff' E' Hes'') as (Hr' & Hoff'' & Hp').
      split_and!; [|done|congruence].
      unfold raised in *. by rewrite omap_app, Hr, Hr'. }
  intros s2 es2 Hrun Hes.
  exact (Hall {| statics := unsubscribed (statics s); subscription := false |}
           s2 es2 eq_refl Hrun Hes).
Qed.

(** C7.  With the cursor on the descriptor phase, the callback subscribes.
    When it does so a second time for the same attribute and the stack
    answers [-EALREADY], the answer is taken as success: the line logged is
    [[SUBSCRIBED]], not an error.  The second call raises no event, and it
    leaves every static as the first call left it: there is still the
    one subscription record, with the one notification callback. *)
Theorem C7_subscribing_again_changes_nothing conn attr tr1 tr2 g u :
  target_uuid g = Some u →
  u ≠ ZMK_SPLIT_BT_SERVICE_UUID →
  u ≠ ZMK_SPLIT_BT_CHAR_POSITION_STATE_UUID →
  ans_ret (tr2 O) = (- EALREADY) →
  ∃ g1 es1,
    run (split_central_discovery_func conn (Some attr)) tr1 g
      = Some (BT_GATT_ITER_STOP, g1, es1)
    ∧ sp_notify (subscribe_params g1) = addr_of_split_central_notify_func
    ∧ sp_value_handle (subscribe_params g1) = sp_value_handle (subscribe_params g)
    ∧ sp_ccc_handle (subscribe_params g1) = u16 (attr_handle attr)
    ∧ run (split_central_discovery_func conn (Some attr)) tr2 g1
      = Some (BT_GATT_ITER_STOP, g1,
              [ LOG_DBG "[ATTRIBUTE] handle %u" [attr_handle attr];
                call_bt_gatt_subscribe conn (subscribe_params g1);
                LOG_DBG "[SUBSCRIBED]" [] ])
    ∧ raised [ LOG_DBG "[ATTRIBUTE] handle %u" [attr_handle attr];
               call_bt_gatt_subscribe conn (subscribe_params g1);
               LOG_DBG "[SUBSCRIBED]" [] ] = [].
Proof.
  intros Hu Hs Hc Hal. eexists _, _.
  split; [by apply (discovery_descriptor_phase conn attr tr1 g u)|].
  split_and!; try done.
  rewrite (discovery_descriptor_phase conn attr tr2 _ u) by done.
  unfold subscribe_log. rewrite Hal, Z.eqb_refl, andb_false_r.
  reflexivity.
Qed.

(** C8.  A disconnect for a connection other than the tracked one changes
    none of the statics and calls nothing but the debug log: no reference
    is dropped and no scan is started. *)
Theorem C8_stale_disconnect_changes_nothing conn reason tr g :
  default_conn g ≠ conn →
  run (split_central_disconnected conn reason) tr g
    = Some (tt, g, [LOG_DBG "Disconnected: %s (reason %d)" [reason]]).
Proof.
  intros H%bt_conn_ptr_eqb_ne. unfold split_central_disconnected. run_monad.
  rewrite H. reflexivity.
Qed.

(** C9.  A disconnect of the tracked connection, and a connect completion
    with an error, both return after dropping the reference to the
    tracked connection, setting [default_conn] to null and calling
    [bt_le_scan_start]; what is logged next is the stack's answer to that
    call.  Nothing else of the statics changes. *)
Theorem C9_lost_connection_resumes_scanning conn reason conn_err tr g :
  (default_conn g = conn →
     run (split_central_disconnected conn reason) tr g
       = Some (tt, set_default_conn None g,
               [ LOG_DBG "Disconnected: %s (reason %d)" [reason];
                 call_bt_conn_unref conn;
                 call_bt_le_scan_start;
                 scan_log (tr O) ]))
  ∧ (conn_err ≠ 0 →
     run (split_central_connected conn conn_err) tr g
       = Some (tt, set_default_conn None g,
               [ LOG_ERR "Failed to connect to %s (%u)" [conn_err];
                 call_bt_conn_unref (default_conn g);
                 call_bt_le_scan_start;
                 scan_log (tr O) ]))
  ∧ default_conn (set_default_conn None g) = None.
Proof.
  split_and!; [| |done].
  - intros H. pose proof H as H'%bt_conn_ptr_eqb_eq.
    unfold split_central_disconnected, scan_log. run_monad.
    rewrite H', H. cbn. destruct (truthy (ans_ret (tr O))); reflexivity.
  - intros H%truthy_true. unfold split_central_connected, scan_log. rewrite H. run_monad.
    destruct (truthy (ans_ret (tr O))); reflexivity.
Qed.


(** ** More about the notification callback *)

Lemma bind_nil_elem_of {A B} (l : list A) (f : A → list B) :
  (∀ x, x ∈ l → f x = []) → l ≫= f = [].
Proof.
  induction l as [|x l IH]; intros H; [done|].
  rewrite bind_cons, (H x) by (by left). apply IH. intros y Hy. apply H. by right.
Qed.

Lemma length_bind_le {A B} (l : list A) (f : A → list B) (n : nat) :
  (∀ x, x ∈ l → (length (f x) ≤ n)%nat) → (length (l ≫= f) ≤ length l * n)%nat.
Proof.
  induction l as [|x l IH]; intros H; [done|].
  rewrite bind_cons, length_app. cbn [length].
  pose proof (H x ltac:(by left)).
  assert (length (l ≫= f) ≤ length l * n)%nat by (apply IH; intros y Hy; apply H; by right).
  lia.
Qed.

Lemma decode_nil previous current :
  (∀ i j : nat, (i < 16)%nat → (j < 8)%nat →
     bitmap_bit previous i j = bitmap_bit current i j) →
  decode previous current = [].
Proof.
  intros H. unfold decode. apply bind_nil_elem_of. intros i Hi%elem_of_seq.
  apply bind_nil_elem_of. intros j Hj%elem_of_seq.
  rewrite H by lia. by rewrite xorb_nilpotent.
Qed.

Lemma decode_length previous current : (length (decode previous current) ≤ 128)%nat.
Proof.
  unfold decode. etrans.
  - apply (length_bind_le _ _ 8). intros i _. etrans.
    + apply (length_bind_le _ _ 1). intros j _. destruct (xorb _ _); cbn; lia.
    + rewrite length_seq. lia.
  - rewrite length_seq. lia.
Qed.

Lemma decode_opposite previous current :
  decode current previous = opposite <$> decode previous current.
Proof.
  unfold decode. rewrite fmap_bind_list. apply bind_ext_elem_of. intros i _.
  rewrite fmap_bind_list. apply bind_ext_elem_of. intros j _.
  destruct (bitmap_bit previous i j), (bitmap_bit current i j); reflexivity.
Qed.

(** The bits of the bitmap a notification has stored are the payload's. *)
Lemma stored_bits (stored payload : list Z) :
  (∀ i, (i < 16)%nat → stored !! i = Some (u8 (payload !!! i))) →
  ∀ i j : nat, (i < 16)%nat → (j < 8)%nat →
    bitmap_bit stored i j = bitmap_bit payload i j.
Proof.
  intros H i j Hi Hj. unfold bitmap_bit.
  rewrite (list_lookup_total_correct _ _ _ (H i Hi)). by apply testbit_u8.
Qed.

Lemma decode_ext_l a b current :
  (∀ i j : nat, (i < 16)%nat → (j < 8)%nat → bitmap_bit a i j = bitmap_bit b i j) →
  decode a current = decode b current.
Proof.
  intros H. unfold decode. apply bind_ext_elem_of. intros i Hi%elem_of_seq.
  apply bind_ext_elem_of. intros j Hj%elem_of_seq. by rewrite H by lia.
Qed.

(** X1.  A payload that repeats the one before it raises nothing and
    leaves the stored bitmap as it is. *)
Theorem X1_repeated_payload_raises_nothing conn (payload : list Z) len tr g :
  (16 ≤ length payload)%nat →
  length (position_state g) = 16%nat →
  ∃ g1 es1,
    run (split_central_notify_func conn (Some payload) len) tr g
      = Some (BT_GATT_ITER_CONTINUE, g1, es1)
    ∧ ∀ conn2 len2 tr2,
        ∃ es2,
          run (split_central_notify_func conn2 (Some payload) len2) tr2 g1
            = Some (BT_GATT_ITER_CONTINUE, g1, es2)
          ∧ raised es2 = [].
Proof.
  intros Hp Hg.
  destruct (notify_payload_spec conn payload len tr g)
    as (g1 & es1 & Hrun1 & _ & _ & _ & _ & _ & Hlen1 & Hst1); [done | done |].
  exists g1, es1. split; [done|]. intros conn2 len2 tr2.
  destruct (notify_payload_spec conn2 payload len2 tr2 g1)
    as (g2 & es2 & Hrun2 & Hev2 & Hc & Hu & Hd & Hs & Hlen2 & Hst2); [done | done |].
  assert (g2 = g1) as ->.
  { destruct g2, g1. cbn in *. f_equal; try done.
    apply list_eq. intros i. destruct (decide (i < 16)%nat) as [Hi|Hi].
    - by rewrite Hst1, Hst2.
    - by rewrite !lookup_ge_None_2 by lia. }
  exists es2. split; [done|]. rewrite Hev2. apply decode_nil.
  by apply stored_bits.
Qed.

(** X2.  When a payload is followed by the bitmap that was stored before
    it, the second notification raises the opposite changes of the first:
    the same positions in the same order, each with its state negated. *)
Theorem X2_going_back_raises_the_opposite_changes
    conn (previous current : list Z) len tr g :
  length previous = 16%nat →
  length current = 16%nat →
  position_state g = previous →
  ∃ g1 es1,
    run (split_central_notify_func conn (Some current) len) tr g
      = Some (BT_GATT_ITER_CONTINUE, g1, es1)
    ∧ ∀ conn2 len2 tr2,
        ∃ g2 es2,
          run (split_central_notify_func conn2 (Some previous) len2) tr2 g1
            = Some (BT_GATT_ITER_CONTINUE, g2, es2)
          ∧ raised es2 = opposite <$> raised es1.
Proof.
  intros Hp Hc Hg.
  destruct (notify_payload_spec conn current len tr g)
    as (g1 & es1 & Hrun1 & Hev1 & _ & _ & _ & _ & Hlen1 & Hst1); [lia | by rewrite Hg |].
  exists g1, es1. split; [done|]. intros conn2 len2 tr2.
  destruct (notify_payload_spec conn2 previous len2 tr2 g1)
    as (g2 & es2 & Hrun2 & Hev2 & _); [lia | done |].
  exists g2, es2. split; [done|].
  rewrite Hev2, Hev1, Hg, <- decode_opposite.
  apply decode_ext_l. by apply stored_bits.
Qed.

(** X3.  One notification raises at most 128 events, and every position
    raised is between 0 and 127. *)
Theorem X3_raised_positions_are_key_positions conn (payload : list Z) len tr g :
  (16 ≤ length payload)%nat →
  length (position_state g) = 16%nat →
  ∃ g' es,
    run (split_central_notify_func conn (Some payload) len) tr g
      = Some (BT_GATT_ITER_CONTINUE, g', es)
    ∧ (length (raised es) ≤ 128)%nat
    ∧ ∀ ev, ev ∈ raised es → 0 ≤ position ev ≤ 127.
Proof.
  intros Hp Hg.
  destruct (notify_payload_spec conn payload len tr g) as (g' & es & Hrun & Hev & _);
    [done | done |].
  exists g', es. split; [done|]. rewrite Hev. split; [apply decode_length|].
  intros ev (i & j & Hi & Hj & _ & ->)%decode_elem_of. cbn. lia.
Qed.

(** ** More about discovery *)

Lemma discovery_null_cursor conn attr tr g :
  dp_uuid (discover_params g) = NULL_uuid →
  run (split_central_discovery_func conn (Some attr)) tr g = None.
Proof.
  intros Hnull. unfold split_central_discovery_func. run_monad.
  unfold target_uuid. by rewrite Hnull.
Qed.

(** X4.  The report that a walk has ended zeroes the cursor and does
    nothing else: it calls nothing but the debug log -- no scan, no
    subscribe, no new walk -- and leaves the tracked connection, [uuid],
    the subscription record and the bitmap as they were.  The cursor then
    has no target, and the callback reads the target without checking
    for null: an attribute reported before the cursor is set again is
    undefined. *)
Theorem X4_end_of_walk_only_clears_the_cursor conn tr g :
  run (split_central_discovery_func conn None) tr g
    = Some (BT_GATT_ITER_STOP, set_discover_params discover_params_zero g,
            [LOG_DBG "Discover complete" []])
  ∧ target_uuid (set_discover_params discover_params_zero g) = None
  ∧ ∀ conn2 attr tr2,
      run (split_central_discovery_func conn2 (Some attr)) tr2
          (set_discover_params discover_params_zero g)
      = None.
Proof.
  split_and!; [reflexivity | reflexivity |].
  intros conn2 attr tr2. by apply discovery_null_cursor.
Qed.

(** X5.  From the service phase, three attribute reports in a row make
    three calls to the stack and no more: the first a request for the
    characteristic walk, the second a request for the descriptor walk,
    the third the one subscribe request, made with the value handle of
    the second report and the handle of the third as its CCC handle, for
    notifications, with the notification callback of the file; the
    subscription record holds the same.  All else that is recorded is
    log lines.  This is so whatever the stack answered to the two walk
    requests. *)
Theorem X5_three_reports_subscribe conn a1 a2 a3 tr1 tr2 tr3 g :
  target_uuid g = Some ZMK_SPLIT_BT_SERVICE_UUID →
  ZMK_SPLIT_BT_CHAR_POSITION_STATE_UUID ≠ ZMK_SPLIT_BT_SERVICE_UUID →
  BT_UUID_GATT_CCC ≠ ZMK_SPLIT_BT_SERVICE_UUID →
  BT_UUID_GATT_CCC ≠ ZMK_SPLIT_BT_CHAR_POSITION_STATE_UUID →
  ∃ g1 g2 g3,
    run (split_central_discovery_func conn (Some a1)) tr1 g
      = Some (BT_GATT_ITER_STOP, g1,
              [ LOG_DBG "[ATTRIBUTE] handle %u" [attr_handle a1];
                call_bt_gatt_discover conn (Some ZMK_SPLIT_BT_CHAR_POSITION_STATE_UUID)
                  (discover_params g1) ]
              ++ discover_log (tr1 O))
    ∧ dp_type (discover_params g1) = BT_GATT_DISCOVER_CHARACTERISTIC
    ∧ run (split_central_discovery_func conn (Some a2)) tr2 g1
      = Some (BT_GATT_ITER_STOP, g2,
              [ LOG_DBG "[ATTRIBUTE] handle %u" [attr_handle a2];
                call_bt_gatt_discover conn (Some BT_UUID_GATT_CCC) (discover_params g2) ]
              ++ discover_log (tr2 O))
    ∧ dp_type (discover_params g2) = BT_GATT_DISCOVER_DESCRIPTOR
    ∧ run (split_central_discovery_func conn (Some a3)) tr3 g2
      = Some (BT_GATT_ITER_STOP, g3,
              [ LOG_DBG "[ATTRIBUTE] handle %u" [attr_handle a3];
                call_bt_gatt_subscribe conn (subscribe_params g3);
                subscribe_log (tr3 O) ])
    ∧ Forall (λ e, is_log e = true) (discover_log (tr1 O) ++ discover_log (tr2 O))
    ∧ is_log (subscribe_log (tr3 O)) = true
    ∧ subscribe_params g3
      = {| sp_notify := addr_of_split_central_notify_func;
           sp_value_handle := u16 (attr_value_handle a2);
           sp_ccc_handle := u16 (attr_handle a3);
           sp_value := BT_GATT_CCC_NOTIFY |}
    ∧ default_conn g3 = default_conn g
    ∧ position_state g3 = position_state g.
Proof.
  intros Hu Hcs Hds Hdc.
  set (g1 := advance ZMK_SPLIT_BT_CHAR_POSITION_STATE_UUID (u16 (attr_handle a1 + 1))
               BT_GATT_DISCOVER_CHARACTERISTIC g).
  set (g2 := record_value_handle (u16 (attr_value_handle a2))
               (advance BT_UUID_GATT_CCC (u16 (attr_handle a2 + 2))
                  BT_GATT_DISCOVER_DESCRIPTOR g1)).
  exists g1, g2, (record_ccc_handle (u16 (attr_handle a3)) g2).
  split; [by apply discovery_service_phase|]. split; [done|].
  split; [by apply discovery_characteristic_phase|]. split; [done|].
  split; [by apply (discovery_descriptor_phase _ _ _ _ BT_UUID_GATT_CCC)|].
  split.
  { unfold discover_log. apply Forall_app.
    split; destruct (truthy _); by repeat constructor. }
  split; [unfold subscribe_log; by destruct (_ && _)|].
  done.
Qed.

(** X6.  A connection is processed by asking for security level 2 first.
    A walk is requested if and only if that was accepted and the
    connection is the tracked one.  If so, the cursor is set to primary
    services over handles 1 to 0xFFFF and the request goes out on the
    tracked connection; its target is what [uuid] holds at that moment,
    which is not written.  If not, none of the statics changes.  Either
    way nothing is released and no scan is started. *)
Theorem X6_walk_starts_only_on_the_secured_tracked_connection conn tr g :
  ∃ g' es,
    run (split_central_process_connection conn) tr g = Some (tt, g', es)
    ∧ (Exists (λ e, is_discover e = true) es ↔ ans_ret (tr O) = 0 ∧ conn = default_conn g)
    ∧ (ans_ret (tr O) = 0 → conn = default_conn g →
       g' = primary_walk g
       ∧ call_bt_gatt_discover conn (Some (uuid g)) (discover_params (primary_walk g)) ∈ es)
    ∧ (¬ (ans_ret (tr O) = 0 ∧ conn = default_conn g) → g' = g)
    ∧ uuid g' = uuid g
    ∧ default_conn g' = default_conn g
    ∧ Forall (λ e, is_log e || is_set_security e || is_discover e = true) es.
Proof.
  eexists _, _. split; [apply process_connection_run|].
  unfold processed, process_log.
  destruct (truthy (ans_ret (tr O))) eqn:Esec.
  - assert (ans_ret (tr O) ≠ 0) as Hne.
    { intros H0. rewrite H0 in Esec. discriminate. }
    split_and!; try done.
    + split; [|by intros [? _]].
      intros H. repeat (apply Exists_cons in H as [H|H]; [discriminate|]).
      by apply Exists_nil in H.
    + by repeat constructor.
  - assert (ans_ret (tr O) = 0) as H0.
    { unfold truthy in Esec. by destruct (Z.eqb_spec (ans_ret (tr O)) 0). }
    destruct (bt_conn_ptr_eqb conn (default_conn g)) eqn:Econn.
    + apply bt_conn_ptr_eqb_eq in Econn.
      split_and!; try done.
      * split; [done|]. intros _. do 2 apply Exists_cons_tl. by apply Exists_cons_hd.
      * intros _ _. split; [done|]. rewrite <- Econn.
        apply elem_of_cons. right. apply elem_of_cons. right. apply elem_of_cons. by left.
      * intros Hnot. by destruct Hnot.
      * destruct (truthy (ans_ret (tr 1%nat))); by repeat constructor.
    + apply bt_conn_ptr_eqb_ne in Econn.
      split_and!; try done.
      * split; [|by intros [_ ?]].
        intros H. repeat (apply Exists_cons in H as [H|H]; [discriminate|]).
        by apply Exists_nil in H.
      * by repeat constructor.
Qed.

(** X7.  When the walk request is refused while a connection is
    processed, the refusal is logged and that is all: the cursor stays
    set for the walk, the connection stays tracked, and no scan is
    started. *)
Theorem X7_refused_first_walk_is_only_logged conn tr g :
  conn = default_conn g →
  ans_ret (tr O) = 0 →
  ans_ret (tr 1%nat) ≠ 0 →
  run (split_central_process_connection conn) tr g
  = Some (tt, primary_walk g,
          [ LOG_DBG "Current security for connection: %d" [];
            call_bt_conn_set_security conn BT_SECURITY_L2;
            call_bt_gatt_discover conn (Some (uuid g)) (discover_params (primary_walk g));
            LOG_ERR "Discover failed(err %d)" [ans_ret (tr 1%nat)] ]).
Proof.
  intros Hconn Hsec Hwalk%truthy_true.
  rewrite process_connection_run. unfold processed, process_log.
  rewrite Hsec, Hwalk. cbn [truthy Z.eqb negb].
  rewrite (proj2 (bt_conn_ptr_eqb_eq _ _) Hconn), Hconn. reflexivity.
Qed.

(** ** Across the callbacks *)

(** X8.  Each callback calls the stack only for what is its own to call:
    the advertisement callback logs, stops the scan, looks the peer up,
    creates the connection, updates the PHY, starts the scan, asks for
    security and for a walk; the connect callback logs, drops the
    reference, starts the scan, asks for security and for a walk; the
    disconnect callback logs, drops the reference and starts the scan;
    the discovery callback logs, asks for a walk and subscribes; the
    notification callback logs and raises events.  None does anything
    else. *)
Theorem X8_calls_of_each_callback cb tr g g' es :
  deliver cb tr g = Some (g', es) →
  Forall (λ e, footprint cb e = true) es.
Proof.
  intros Hrun%deliver_run.
  destruct cb as [data addr|conn conn_err|conn reason|conn attr|conn [payload|] len];
    destruct Hrun as [r Hrun].
  - eapply (within_run nothing), Hrun. by apply within_eir_found.
  - eapply (within_run nothing), Hrun. by apply within_connected.
  - eapply (within_run nothing), Hrun. by apply within_disconnected.
  - eapply (within_run nothing), Hrun. by apply within_discovery.
  - eapply (within_run nothing), Hrun. by apply within_notify_payload.
  - destruct (within_run nothing is_log _ _ _ _ _ _
                (within_notify_absent nothing conn len (λ _ _, eq_refl)) Hrun) as [_ Hes].
    eapply Forall_impl; [exact Hes|]. by intros [] ?.
Qed.

(** X9.  Each callback writes only the statics that are its own to
    write.  The advertisement and connect callbacks leave [uuid], the
    subscription record and the bitmap as they were; the disconnect
    callback leaves all but the tracked connection; the discovery
    callback leaves the tracked connection and the bitmap; the
    notification callback leaves the tracked connection, [uuid] and the
    cursor, and of subscription record and bitmap the one it does not
    write: the record with a payload, the bitmap without. *)
Theorem X9_statics_of_each_callback cb tr g g' es :
  deliver cb tr g = Some (g', es) →
  leaves cb g g'.
Proof.
  intros Hrun%deliver_run.
  destruct cb as [data addr|conn conn_err|conn reason|conn attr|conn [payload|] len];
    destruct Hrun as [r Hrun]; unfold leaves.
  - eapply (within_run (λ g, (uuid g, subscribe_params g, position_state g))) in Hrun
      as [[= -> -> ->] _]; [done|]. by apply within_eir_found.
  - eapply (within_run (λ g, (uuid g, subscribe_params g, position_state g))) in Hrun
      as [[= -> -> ->] _]; [done|]. by apply within_connected.
  - eapply (within_run
              (λ g, (uuid g, discover_params g, subscribe_params g, position_state g)))
      in Hrun as [[= -> -> -> ->] _]; [done|]. by apply within_disconnected.
  - eapply (within_run (λ g, (default_conn g, position_state g))) in Hrun
      as [[= -> ->] _]; [done|]. by apply within_discovery.
  - eapply (within_run but_position_state) in Hrun as [[= -> -> -> ->] _]; [done|].
    by apply within_notify_payload.
  - eapply (within_run
              (λ g, (default_conn g, uuid g, discover_params g, position_state g)))
      in Hrun as [[= -> -> -> ->] _]; [done|]. by apply within_notify_absent.
Qed.

(** X10.  Key events come from payloads only: a callback that hands the
    notification callback no payload -- any advertisement, connect,
    disconnect or discovery callback, and the notification callback
    without payload -- raises no event. *)
Theorem X10_events_only_from_payloads cb tr g g' es :
  no_payload cb = true →
  deliver cb tr g = Some (g', es) →
  raised es = [].
Proof.
  intros Hcb Hrun%deliver_run. apply raised_none.
  assert (∀ q : effect → bool, (∀ e, q e = true → is_raise e = false) →
            Forall (λ e, q e = true) es → Forall (λ e, is_raise e = false) es) as Hweak.
  { intros q Hq Hes. eapply Forall_impl; [exact Hes | exact Hq]. }
  destruct cb as [data addr|conn conn_err|conn reason|conn attr|conn [payload|] len];
    try discriminate Hcb; destruct Hrun as [r Hrun].
  - eapply (within_run nothing) in Hrun as [_ Hes]; [|by apply within_eir_found].
    eapply Hweak, Hes. by intros [] ?.
  - eapply (within_run nothing) in Hrun as [_ Hes]; [|by apply within_connected].
    eapply Hweak, Hes. by intros [] ?.
  - eapply (within_run nothing) in Hrun as [_ Hes]; [|by apply within_disconnected].
    eapply Hweak, Hes. by intros [] ?.
  - eapply (within_run nothing) in Hrun as [_ Hes]; [|by apply within_discovery].
    eapply Hweak, Hes. by intros [] ?.
  - eapply (within_run nothing) in Hrun as [_ Hes]; [|by apply within_notify_absent].
    eapply Hweak, Hes. by intros [] ?.
Qed.

(** ** The target of the walk, over time *)

Lemma connected_ok_run conn tr g :
  run (split_central_connected conn 0) tr g
  = Some (tt, processed conn g tr O,
          LOG_DBG "Connected: %s" [] :: process_log conn g tr O).
Proof.
  unfold split_central_connected, split_central_process_connection, processed, process_log.
  cbn [truthy Z.eqb negb]. run_monad.
  destruct (truthy (ans_ret (tr O))); [reflexivity|].
  destruct (bt_conn_ptr_eqb conn (default_conn g)); [|reflexivity].
  destruct (truthy (ans_ret (tr 1%nat))); reflexivity.
Qed.

(** What the discovery callback makes of [uuid]: it is left alone or
    moved on to the characteristic or the CCC UUID. *)
Lemma discovery_uuid conn attr tr g r g' es :
  run (split_central_discovery_func conn attr) tr g = Some (r, g', es) →
  uuid g' = uuid g
  ∨ (uuid g = ZMK_SPLIT_BT_SERVICE_UUID ∧ uuid g' = ZMK_SPLIT_BT_CHAR_POSITION_STATE_UUID)
  ∨ (uuid g ≠ ZMK_SPLIT_BT_SERVICE_UUID ∧ uuid g' = BT_UUID_GATT_CCC).
Proof.
  destruct attr as [attr|]; [|intros [= _ <- _]; by left].
  destruct (target_uuid g) as [u|] eqn:Hu.
  - assert (u = uuid g) as ->.
    { unfold target_uuid in Hu. destruct (dp_uuid _); congruence. }
    destruct (decide (uuid g = ZMK_SPLIT_BT_SERVICE_UUID)) as [Hs|Hs].
    + rewrite discovery_service_phase by congruence. intros [= _ <- _].
      right. left. done.
    + destruct (decide (uuid g = ZMK_SPLIT_BT_CHAR_POSITION_STATE_UUID)) as [Hc|Hc].
      * rewrite discovery_characteristic_phase by congruence. intros [= _ <- _].
        right. right. done.
      * rewrite (discovery_descriptor_phase _ _ _ _ (uuid g)) by done.
        intros [= _ <- _]. by left.
  - rewrite discovery_null_cursor; [done|].
    unfold target_uuid in Hu. by destruct (dp_uuid _).
Qed.

(** X11.  [uuid] holds the service UUID when the program starts, and once
    the discovery callback has moved it on, nothing brings it back: if
    [uuid] is not the service UUID before a callback, it is not after it,
    and so after any sequence of callbacks.  (The characteristic and CCC
    UUIDs are taken to differ from the service UUID.) *)
Theorem X11_target_never_returns_to_the_service :
  ZMK_SPLIT_BT_CHAR_POSITION_STATE_UUID ≠ ZMK_SPLIT_BT_SERVICE_UUID →
  BT_UUID_GATT_CCC ≠ ZMK_SPLIT_BT_SERVICE_UUID →
  uuid startup = ZMK_SPLIT_BT_SERVICE_UUID
  ∧ (∀ cb tr g g' es,
       deliver cb tr g = Some (g', es) →
       uuid g ≠ ZMK_SPLIT_BT_SERVICE_UUID → uuid g' ≠ ZMK_SPLIT_BT_SERVICE_UUID)
  ∧ (∀ cbs g g',
       after cbs g = Some g' →
       uuid g ≠ ZMK_SPLIT_BT_SERVICE_UUID → uuid g' ≠ ZMK_SPLIT_BT_SERVICE_UUID).
Proof.
  intros Hcs Hds.
  assert (∀ cb tr g g' es,
            deliver cb tr g = Some (g', es) →
            uuid g ≠ ZMK_SPLIT_BT_SERVICE_UUID → uuid g' ≠ ZMK_SPLIT_BT_SERVICE_UUID)
    as Hstep.
  { intros cb tr g g' es Hrun%deliver_run Hg.
    destruct cb as [data addr|conn conn_err|conn reason|conn attr|conn [payload|] len];
      destruct Hrun as [r Hrun].
    - eapply (within_run uuid) in Hrun as [-> _]; [done|]. by apply within_eir_found.
    - eapply (within_run uuid) in Hrun as [-> _]; [done|]. by apply within_connected.
    - eapply (within_run uuid) in Hrun as [-> _]; [done|]. by apply within_disconnected.
    - destruct (discovery_uuid _ _ _ _ _ _ _ Hrun) as [->|[[? _]|[_ ->]]]; done.
    - eapply (within_run uuid) in Hrun as [-> _]; [done|]. by apply within_notify_payload.
    - destruct (within_run uuid is_log _ _ _ _ _ _
                  (within_notify_absent uuid conn len (λ _ _, eq_refl)) Hrun) as [-> _].
      done. }
  split_and!; [done | exact Hstep |].
  intros cbs. induction cbs as [|[cb tr] cbs IH]; intros g g' Hafter Hg.
  - by injection Hafter as <-.
  - cbn [after] in Hafter. destruct (deliver cb tr g) as [[g1 es1]|] eqn:E; [|done].
    cbn in Hafter. eapply IH; [exact Hafter|]. by eapply Hstep.
Qed.

(** X12.  A subscribe request is made by the discovery callback only, and
    by it only on an attribute report that finds the cursor's target to
    be neither the service nor the characteristic UUID. *)
Theorem X12_subscribe_only_past_the_characteristic cb tr g g' es :
  deliver cb tr g = Some (g', es) →
  Exists (λ e, is_subscribe e = true) es →
  ∃ conn attr u,
    cb = discovered conn (Some attr)
    ∧ target_uuid g = Some u
    ∧ u ≠ ZMK_SPLIT_BT_SERVICE_UUID
    ∧ u ≠ ZMK_SPLIT_BT_CHAR_POSITION_STATE_UUID.
Proof.
  intros Hrun%deliver_run Hsub.
  assert (∀ q : effect → bool, (∀ e, q e = true → is_subscribe e = false) →
            Forall (λ e, q e = true) es → False) as Hnot.
  { intros q Hq Hes. apply Exists_exists in Hsub as (e & He & Hsub).
    rewrite Forall_forall in Hes. apply Hes, Hq in He. congruence. }
  destruct cb as [data addr|conn conn_err|conn reason|conn attr|conn [payload|] len];
    destruct Hrun as [r Hrun].
  - exfalso. eapply (within_run nothing) in Hrun as [_ Hes]; [|by apply within_eir_found].
    eapply Hnot, Hes. by intros [] ?.
  - exfalso. eapply (within_run nothing) in Hrun as [_ Hes]; [|by apply within_connected].
    eapply Hnot, Hes. by intros [] ?.
  - exfalso. eapply (within_run nothing) in Hrun as [_ Hes]; [|by apply within_disconnected].
    eapply Hnot, Hes. by intros [] ?.
  - destruct attr as [attr|].
    + destruct (target_uuid g) as [u|] eqn:Hu.
      * exists conn, attr, u. split; [done|]. split; [done|].
        assert (∀ es' : list effect, es = es' → Forall (λ e, is_subscribe e = false) es' →
                  False) as Hnot'.
        { intros es' -> Hes'. eapply (Hnot (λ e, negb (is_subscribe e))); [|].
          - intros e He. by destruct (is_subscribe e).
          - eapply Forall_impl; [exact Hes'|]. intros e He. by rewrite He. }
        destruct (decide (u = ZMK_SPLIT_BT_SERVICE_UUID)) as [->|Hs].
        { exfalso. rewrite discovery_service_phase in Hrun by done.
          injection Hrun as _ _ <-. eapply Hnot'; [done|].
          unfold discover_log. destruct (truthy _); by repeat constructor. }
        split; [done|]. intros ->. apply Hs. exfalso.
        rewrite discovery_characteristic_phase in Hrun by done.
        injection Hrun as _ _ <-. eapply Hnot'; [done|].
        unfold discover_log. destruct (truthy _); by repeat constructor.
      * rewrite discovery_null_cursor in Hrun; [done|].
        unfold target_uuid in Hu. by destruct (dp_uuid _).
    + exfalso. injection Hrun as _ _ <-.
      eapply (Hnot is_log); [by intros [] ?|]. by repeat constructor.
  - exfalso. eapply (within_run nothing) in Hrun as [_ Hes];
      [|by apply within_notify_payload].
    eapply Hnot, Hes. by intros [] ?.
  - exfalso.
    destruct (within_run nothing is_log _ _ _ _ _ _
                (within_notify_absent nothing conn len (λ _ _, eq_refl)) Hrun) as [_ Hes].
    eapply Hnot, Hes. by intros [] ?.
Qed.

(** X13.  Processing a connection does not reset [uuid].  When [uuid] holds
    neither the service nor the characteristic UUID -- as it does once a
    walk has got past the characteristic -- a connect of the tracked
    connection requests the primary walk with that UUID for target, and
    the first attribute reported to the discovery callback is taken for
    the descriptor: the callback subscribes at once, with that
    attribute's handle as CCC handle and the value handle left over from
    before. *)
Theorem X13_reconnect_subscribes_on_the_first_report conn tr g u :
  uuid g = u →
  u ≠ ZMK_SPLIT_BT_SERVICE_UUID →
  u ≠ ZMK_SPLIT_BT_CHAR_POSITION_STATE_UUID →
  default_conn g = conn →
  ans_ret (tr O) = 0 →
  ∃ g1 es1,
    run (split_central_connected conn 0) tr g = Some (tt, g1, es1)
    ∧ call_bt_gatt_discover conn (Some u) (discover_params (primary_walk g)) ∈ es1
    ∧ ∀ conn2 attr tr2,
        ∃ g2,
          run (split_central_discovery_func conn2 (Some attr)) tr2 g1
          = Some (BT_GATT_ITER_STOP, g2,
                  [ LOG_DBG "[ATTRIBUTE] handle %u" [attr_handle attr];
                    call_bt_gatt_subscribe conn2
                      {| sp_notify := addr_of_split_central_notify_func;
                         sp_value_handle := sp_value_handle (subscribe_params g);
                         sp_ccc_handle := u16 (attr_handle attr);
                         sp_value := BT_GATT_CCC_NOTIFY |};
                    subscribe_log (tr2 O) ])
          ∧ uuid g2 = u.
Proof.
  intros Hu Hs Hc Hconn Hsec.
  eexists _, _. split; [apply connected_ok_run|].
  unfold processed, process_log. rewrite Hsec. cbn [truthy Z.eqb negb].
  rewrite (proj2 (bt_conn_ptr_eqb_eq conn (default_conn g))) by done.
  split.
  - rewrite Hconn, Hu. do 3 (apply elem_of_cons; right). apply elem_of_cons. by left.
  - intros conn2 attr tr2. eexists.
    rewrite (discovery_descriptor_phase _ _ _ _ u); [|by rewrite <- Hu|done|done].
    split; [reflexivity | exact Hu].
Qed.

(** X14.  A disconnect callback that comes a second time for the
    connection that was tracked finds nothing tracked and does nothing:
    no reference is dropped twice and no second scan is started. *)
Theorem X14_second_disconnect_does_nothing (c : nat) reason tr g :
  default_conn g = Some c →
  ∃ g1 es1,
    run (split_central_disconnected (Some c) reason) tr g = Some (tt, g1, es1)
    ∧ default_conn g1 = None
    ∧ ∀ reason2 tr2,
        run (split_central_disconnected (Some c) reason2) tr2 g1
        = Some (tt, g1, [LOG_DBG "Disconnected: %s (reason %d)" [reason2]]).
Proof.
  intros Hc.
  exists (set_default_conn None g),
    [ LOG_DBG "Disconnected: %s (reason %d)" [reason];
      call_bt_conn_unref (Some c); call_bt_le_scan_start; scan_log (tr O) ].
  split_and!.
  - unfold split_central_disconnected, scan_log. run_monad.
    rewrite Hc. cbn [bt_conn_ptr_eqb negb].
    rewrite Nat.eqb_refl. cbn [negb]. destruct (truthy (ans_ret (tr O))); reflexivity.
  - reflexivity.
  - intros reason2 tr2. reflexivity.
Qed.

(** ** The stored bitmap, over time *)

Lemma notify_diff_defined tr data count :
  ∀ from changed w x,
    notify_diff from count data changed tr w = Some x →
    count = O ∨ (from + count ≤ length data)%nat.
Proof.
  induction count as [|count IH]; intros from changed w x; [by left|].
  cbn [notify_diff]. unfold mbind at 1, M_bind at 1, get at 1.
  unfold mbind at 1, M_bind at 1.
  destruct (data !! from) as [d|] eqn:Ed; [|done]. cbn [defined].
  unfold mret at 1, M_ret at 1.
  unfold mbind at 1, M_bind at 1.
  destruct (position_state (mem w) !! from) as [p|]; [|done]. cbn [defined].
  unfold mret at 1, M_ret at 1.
  unfold mbind at 1, M_bind at 1, modify at 1.
  intros Hrun. apply IH in Hrun. apply lookup_lt_Some in Ed. right. lia.
Qed.

Lemma notify_payload_defined conn (payload : list Z) len tr g x :
  run (split_central_notify_func conn (Some payload) len) tr g = Some x →
  (16 ≤ length payload)%nat.
Proof.
  unfold run, split_central_notify_func, POSITION_STATE_DATA_LEN.
  erewrite mbind_Some by reflexivity. cbv beta.
  unfold mbind at 1, M_bind at 1.
  destruct (notify_diff _ _ _ _ _ _) as [[changed w1]|] eqn:E; [|done].
  intros _. apply notify_diff_defined in E as [E|E]; [done | lia].
Qed.

(** X15.  The notification callback reads sixteen bytes of the payload
    whatever its length: with the stored bitmap in order, a notification
    is defined if and only if the payload has at least sixteen bytes; a
    shorter one is read past its end. *)
Theorem X15_short_payload_is_read_past_its_end conn (payload : list Z) len tr g :
  length (position_state g) = 16%nat →
  is_Some (run (split_central_notify_func conn (Some payload) len) tr g)
  ↔ (16 ≤ length payload)%nat.
Proof.
  intros Hg. split.
  - intros [x Hx]. by eapply notify_payload_defined.
  - intros Hp.
    destruct (notify_payload_spec conn payload len tr g) as (g' & es & Hrun & _);
      [done | done |].
    by rewrite Hrun.
Qed.

(** X16.  The stored bitmap has its sixteen bytes, each between 0 and 255,
    when the program starts, and every callback that returns keeps it so;
    hence it is so after every sequence of callbacks from the start. *)
Theorem X16_bitmap_stays_sixteen_bytes :
  bitmap_ok startup
  ∧ (∀ cb tr g g' es,
       bitmap_ok g → deliver cb tr g = Some (g', es) → bitmap_ok g')
  ∧ (∀ cbs g', after cbs startup = Some g' → bitmap_ok g').
Proof.
  assert (bitmap_ok startup) as Hstart.
  { split; [reflexivity|]. cbn. repeat constructor; done. }
  assert (∀ cb tr g g' es,
            bitmap_ok g → deliver cb tr g = Some (g', es) → bitmap_ok g') as Hstep.
  { intros cb tr g g' es [Hlen Hbytes] Hrun.
    destruct (no_payload cb) eqn:Hcb.
    - apply deliver_run in Hrun.
      assert (position_state g' = position_state g) as Hsame.
      { destruct cb as [data addr|conn conn_err|conn reason|conn attr|conn [payload|] len];
          try discriminate Hcb; destruct Hrun as [r Hrun].
        - eapply (within_run position_state) in Hrun as [-> _]; [done|].
          by apply within_eir_found.
        - eapply (within_run position_state) in Hrun as [-> _]; [done|].
          by apply within_connected.
        - eapply (within_run position_state) in Hrun as [-> _]; [done|].
          by apply within_disconnected.
        - eapply (within_run position_state) in Hrun as [-> _]; [done|].
          by apply within_discovery.
        - by destruct (within_run position_state is_log _ _ _ _ _ _
                         (within_notify_absent position_state conn len (λ _ _, eq_refl))
                         Hrun) as [-> _]. }
      unfold bitmap_ok. by rewrite Hsame.
    - destruct cb as [| | | |conn [payload|] len]; try discriminate Hcb.
      apply deliver_run in Hrun as [r Hrun].
      pose proof (notify_payload_defined _ _ _ _ _ _ Hrun) as Hp.
      destruct (notify_payload_spec conn payload len tr g)
        as (h & es' & Hrun' & _ & _ & _ & _ & _ & Hlen' & Hst); [done | done |].
      rewrite Hrun in Hrun'. injection Hrun' as _ <- _.
      split; [done|]. apply Forall_lookup. intros i b Hb.
      assert (i < 16)%nat as Hi by (apply lookup_lt_Some in Hb; lia).
      rewrite Hst in Hb by done. injection Hb as <-.
      unfold u8. apply Z.mod_pos_bound. done. }
  split_and!; [exact Hstart | exact Hstep |].
  assert (∀ cbs g g', bitmap_ok g → after cbs g = Some g' → bitmap_ok g') as Hall.
  { intros cbs. induction cbs as [|[cb tr] cbs IH]; intros g g' Hg Hafter.
    - by injection Hafter as <-.
    - cbn [after] in Hafter. destruct (deliver cb tr g) as [[g1 es1]|] eqn:E; [|done].
      cbn in Hafter. eapply IH; [|exact Hafter]. by eapply Hstep. }
  intros cbs g'. by apply Hall.
Qed.

(** ** More about the advertisement callback *)

Lemma truthy_false (x : Z) : truthy x = false → x = 0.
Proof. unfold truthy. by destruct (Z.eqb_spec x 0). Qed.

Lemma eir_found_uuid128 data (n : nat) :
  length (ad_data data) = (16 * n)%nat →
  truthy (Z.of_nat (length (ad_data data)) mod 16) = false
  ∧ (length (ad_data data) / 16)%nat = n.
Proof.
  intros ->. split.
  - rewrite Nat2Z.inj_mul, Z.mul_comm, Z.mod_mul by done. done.
  - rewrite Nat.mul_comm. by apply Nat.div_mul.
Qed.

(** What a run of the advertisement callback comes to. *)
Lemma eir_found_run data addr tr g :
  run (split_central_eir_found data addr) tr g
  = let line := LOG_DBG "[AD]: %u data_len %u"
                  [ad_type data; Z.of_nat (length (ad_data data))] in
    if is_uuid128 data then
      if truthy (Z.of_nat (length (ad_data data)) mod 16) then
        Some (true, g, [line; LOG_ERR "AD malformed" []])
      else
        match (length (ad_data data) / 16)%nat with
        | O => Some (true, g, [line])
        | S _ => None
        end
    else Some (true, g, [line]).
Proof.
  unfold split_central_eir_found, is_uuid128.
  destruct ((ad_type data =? BT_DATA_UUID128_SOME) || (ad_type data =? BT_DATA_UUID128_ALL));
    [|reflexivity].
  destruct (truthy _); [reflexivity|].
  destruct (length (ad_data data) / 16)%nat; reflexivity.
Qed.

(** A run of the advertisement callback that is defined returns [true],
    changes nothing and only logs. *)
Lemma eir_found_defined data addr tr g r g' es :
  run (split_central_eir_found data addr) tr g = Some (r, g', es) →
  r = true ∧ g' = g ∧ Forall (λ e, is_log e = true) es.
Proof.
  rewrite eir_found_run. cbv zeta.
  destruct (is_uuid128 data); [destruct (truthy _); [|destruct (_ / _)%nat; [|done]]|];
    intros [= <- <- <-]; by repeat constructor.
Qed.

(** X17.  An element that is not a list of 128-bit UUIDs, or one whose
    length is not a multiple of sixteen, is passed over: the callback
    returns [true] for the parser to go on, changes none of the statics,
    and calls nothing but the log, with the line "AD malformed" in the
    second case. *)
Theorem X17_unusable_element_is_passed_over data addr tr g :
  is_uuid128 data = false ∨ Z.of_nat (length (ad_data data)) mod 16 ≠ 0 →
  run (split_central_eir_found data addr) tr g
  = Some (true, g,
          LOG_DBG "[AD]: %u data_len %u" [ad_type data; Z.of_nat (length (ad_data data))]
          :: (if is_uuid128 data then [LOG_ERR "AD malformed" []] else [])).
Proof.
  unfold split_central_eir_found, is_uuid128.
  destruct ((ad_type data =? BT_DATA_UUID128_SOME) || (ad_type data =? BT_DATA_UUID128_ALL)).
  - intros [?|Hlen%truthy_true]; [done|]. rewrite Hlen. reflexivity.
  - intros _. reflexivity.
Qed.

(** X18.  An element of 128-bit UUIDs that holds at least one of them
    makes the callback undefined, whatever the UUID.  The loop declares
    the local that is to receive the UUID as [struct bt_uuid], which is
    the type byte alone, and hands it to [bt_uuid_create] with a length
    of 16: the call writes seventeen bytes through the pointer.  What
    comes after it in the loop -- the comparison with the service UUID,
    the scan stop, the lookup, the create -- is not reached by a run
    that is defined. *)
Theorem X18_element_with_a_uuid_overflows_the_local data addr tr g (n : nat) :
  is_uuid128 data = true →
  length (ad_data data) = (16 * S n)%nat →
  (∀ bytes tr' w, bt_uuid_create sizeof_bt_uuid bytes tr' w = None)
  ∧ run (split_central_eir_found data addr) tr g = None.
Proof.
  intros Htype Hlen. split; [reflexivity|].
  destruct (eir_found_uuid128 data (S n) Hlen) as [Hmod Hdiv].
  by rewrite eir_found_run, Htype, Hmod, Hdiv.
Qed.

(** X19.  A run of the advertisement callback is defined for the elements
    that do not get into the loop, and for no other: one that is not a
    list of 128-bit UUIDs, one whose length is not a multiple of sixteen,
    and one shorter than a UUID, which is then empty.  Every run that is
    defined returns [true], changes none of the statics and calls
    nothing but the log: as far as it is defined, the callback never
    stops the scan, looks a peer up, or creates a connection. *)
Theorem X19_defined_runs_only_log data addr tr g :
  (is_Some (run (split_central_eir_found data addr) tr g)
   ↔ is_uuid128 data = false
     ∨ Z.of_nat (length (ad_data data)) mod 16 ≠ 0
     ∨ (length (ad_data data) < 16)%nat)
  ∧ (∀ r g' es,
       run (split_central_eir_found data addr) tr g = Some (r, g', es) →
       r = true ∧ g' = g ∧ Forall (λ e, is_log e = true) es).
Proof.
  rewrite eir_found_run. cbv zeta.
  destruct (is_uuid128 data).
  - destruct (truthy _) eqn:Hmod.
    + split.
      * split; [|by eexists]. intros _. right. left. intros H0.
        rewrite H0 in Hmod. discriminate.
      * intros r g' es [= <- <- <-]. by repeat constructor.
    + apply truthy_false in Hmod.
      destruct (length (ad_data data) / 16)%nat as [|c] eqn:Hdiv.
      * split.
        -- split; [|by eexists]. intros _. right. right.
           by apply Nat.div_small_iff in Hdiv.
        -- intros r g' es [= <- <- <-]. by repeat constructor.
      * split; [|done]. split; [by intros [? [=]]|].
        intros [?|[?|Hlt]]; [done | done |].
        apply Nat.div_small_iff in Hlt; [|done]. rewrite Hlt in Hdiv. discriminate.
  - split.
    + split; [|by eexists]. intros _. by left.
    + intros r g' es [= <- <- <-]. by repeat constructor.
Qed.

Lemma disconnected_statics conn reason tr g r g' es :
  run (split_central_disconnected conn reason) tr g = Some (r, g', es) →
  g' = g ∨ g' = set_default_conn None g.
Proof.
  unfold split_central_disconnected. run_monad.
  destruct (bt_conn_ptr_eqb _ _); cbn.
  - destruct (truthy (ans_ret (tr O))); intros [= <- <- <-]; by right.
  - intros [= <- <- <-]. by left.
Qed.

Lemma connected_statics conn conn_err tr g r g' es :
  run (split_central_connected conn conn_err) tr g = Some (r, g', es) →
  default_conn g' = None ∨ default_conn g' = default_conn g.
Proof.
  destruct (truthy conn_err) eqn:Herr.
  - unfold split_central_connected. rewrite Herr. run_monad.
    destruct (truthy (ans_ret (tr O))); intros [= <- <- <-]; by left.
  - apply truthy_false in Herr as ->. rewrite connected_ok_run.
    intros [= <- <- <-]. right. unfold processed.
    destruct (truthy _); [done|]. by destruct (bt_conn_ptr_eqb _ _).
Qed.

(** X20.  Only the lines after the lookup ever store a connection in
    [default_conn], and no run of the advertisement callback that is
    defined gets there.  So [default_conn], null when the program starts,
    is null after every callback that finds it null and returns, and
    after every sequence of callbacks from the start: as far as the
    callbacks are defined, no connection is ever tracked, and no walk is
    requested for a connection that is not null. *)
Theorem X20_no_connection_is_tracked :
  default_conn startup = None
  ∧ (∀ cb tr g g' es,
       default_conn g = None →
       deliver cb tr g = Some (g', es) →
       default_conn g' = None)
  ∧ (∀ cbs g',
       after cbs startup = Some g' → default_conn g' = None).
Proof.
  assert (∀ cb tr g g' es,
            default_conn g = None → deliver cb tr g = Some (g', es) →
            default_conn g' = None) as Hstep.
  { intros cb tr g g' es Hg Hrun%deliver_run.
    destruct cb as [data addr|conn conn_err|conn reason|conn attr|conn [payload|] len];
      destruct Hrun as [r Hrun].
    - destruct (eir_found_defined _ _ _ _ _ _ _ Hrun) as (_ & -> & _). done.
    - destruct (connected_statics _ _ _ _ _ _ _ Hrun) as [?|?]; congruence.
    - destruct (disconnected_statics _ _ _ _ _ _ _ Hrun) as [->| ->]; done.
    - eapply (within_run default_conn) in Hrun as [-> _]; [done|]. by apply within_discovery.
    - eapply (within_run default_conn) in Hrun as [-> _]; [done|].
      by apply within_notify_payload.
    - destruct (within_run default_conn is_log _ _ _ _ _ _
                  (within_notify_absent default_conn conn len (λ _ _, eq_refl)) Hrun)
        as [-> _]. done. }
  split_and!; [done | exact Hstep |].
  assert (∀ cbs g g', default_conn g = None → after cbs g = Some g' →
            default_conn g' = None) as Hall.
  { intros cbs. induction cbs as [|[cb tr] cbs IH]; intros g g' Hg; cbn [after].
    - by intros [= <-].
    - destruct (deliver cb tr g) as [[g1 es1]|] eqn:E; [|done]. cbn.
      apply IH. by eapply Hstep. }
  intros cbs g'. by apply Hall.
Qed.




(** X23.  An advertisement that is neither connectable nor directed is
    ignored: the scan callback does not hand it to the parser, changes
    none of the statics and calls nothing but the debug log, whatever the
    parser is. *)
Theorem X23_other_advertisements_are_ignored bt_data_parse addr rssi type ad tr g :
  type ≠ BT_GAP_ADV_TYPE_ADV_IND →
  type ≠ BT_GAP_ADV_TYPE_ADV_DIRECT_IND →
  run (split_central_device_found bt_data_parse addr rssi type ad) tr g
  = Some (tt, g,
          [ LOG_DBG "[DEVICE]: %s, AD evt type %u, AD data len %u, RSSI %i"
              [type; Z.of_nat (length ad); rssi] ]).
Proof.
  intros H1 H2. unfold split_central_device_found.
  destruct (Z.eqb_spec type BT_GAP_ADV_TYPE_ADV_IND); [done|].
  destruct (Z.eqb_spec type BT_GAP_ADV_TYPE_ADV_DIRECT_IND); [done|].
  reflexivity.
Qed.

End Central.

(** ** The sample session, run *)

Example connecting_reaches_walking :
  after sample_service_uuid sample_char_uuid sample_EALREADY connecting
    (tracking sample_service_uuid)
  = Some (walking sample_service_uuid).
Proof. vm_compute. reflexivity. Qed.

Example subscribing_reaches_subscribed :
  after sample_service_uuid sample_char_uuid sample_EALREADY subscribing
    (tracking sample_service_uuid)
  = Some subscribed.
Proof. vm_compute. reflexivity. Qed.

(** Key 0 goes down, then up. *)
Example press_then_release :
  ∃ g1 es1 g2 es2,
    run (split_central_notify_func (Some 1%nat) (Some key_0) 16) quiet subscribed
      = Some (BT_GATT_ITER_CONTINUE, g1, es1)
    ∧ raised es1 = [ {| position := 0; state := true |} ]
    ∧ run (split_central_notify_func (Some 1%nat) (Some no_key) 16) quiet g1
      = Some (BT_GATT_ITER_CONTINUE, g2, es2)
    ∧ raised es2 = [ {| position := 0; state := false |} ].
Proof. eexists _, _, _, _. split_and!; vm_compute; reflexivity. Qed.

(** ** The claims at sample inputs *)

Lemma C1_witness :
  length no_key = 16%nat ∧ length key_0 = 16%nat ∧ position_state subscribed = no_key
  ∧ ∃ g' es,
      run (split_central_notify_func (Some 1%nat) (Some key_0) 16) quiet subscribed
        = Some (BT_GATT_ITER_CONTINUE, g', es)
      ∧ raised es = [pressed_0].
Proof.
  split_and!; [reflexivity | reflexivity | reflexivity |].
  destruct (C1_notification_raises_the_bit_differences
              (Some 1%nat) no_key key_0 16 quiet subscribed eq_refl eq_refl eq_refl)
    as (g' & es & Hrun & Hev & _).
  exists g', es. split; [exact Hrun|]. rewrite Hev. vm_compute. reflexivity.
Defined.

(** C2 fails as stated: a payload of seventeen bytes, reported as such,
    raises an event. *)
Lemma C2_counterexample :
  length key_0_long = 17%nat
  ∧ ∃ g' es,
      run (split_central_notify_func (Some 1%nat) (Some key_0_long) 17) quiet subscribed
        = Some (BT_GATT_ITER_CONTINUE, g', es)
      ∧ raised es = [pressed_0]
      ∧ raised es ≠ [].
Proof.
  split; [reflexivity|]. eexists _, _. split_and!; [vm_compute; reflexivity | | ].
  - vm_compute. reflexivity.
  - vm_compute. discriminate.
Qed.

Lemma C2_witness :
  (16 ≤ length key_0_long)%nat ∧ length (position_state subscribed) = 16%nat
  ∧ ∃ g' es,
      run (split_central_notify_func (Some 1%nat) (Some key_0_long) 17) quiet subscribed
        = Some (BT_GATT_ITER_CONTINUE, g', es)
      ∧ raised es = decode no_key key_0
      ∧ position_state g' = key_0.
Proof.
  assert (16 ≤ length key_0_long)%nat as Hp by (vm_compute; lia).
  assert (length (position_state subscribed) = 16%nat) as Hg by reflexivity.
  split_and!; [exact Hp | exact Hg |].
  destruct (C2_payload_length_is_not_checked (Some 1%nat) key_0_long 17 quiet subscribed Hp Hg)
    as (g' & es & Hrun & Hev & Hst & _).
  exists g', es. split_and!; [exact Hrun | exact Hev | rewrite Hst; vm_compute; reflexivity].
Defined.

(** C3 fails as stated at the top of the handle space: a service reported
    at handle 0xFFFF sends the characteristic walk to handle 0, not to
    0x10000, and a characteristic reported at 0xFFFE sends the descriptor
    walk to 0 as well. *)
Lemma C3_counterexample :
  (∃ g' es,
     run (split_central_discovery_func sample_service_uuid sample_char_uuid sample_EALREADY
            (Some 1%nat) (attr_at 0xFFFF 0)) quiet (walking sample_service_uuid)
       = Some (BT_GATT_ITER_STOP, g', es)
     ∧ dp_start_handle (discover_params g') = 0
     ∧ dp_start_handle (discover_params g') ≠ 0xFFFF + 1)
  ∧ (∃ g' es,
       run (split_central_discovery_func sample_service_uuid sample_char_uuid sample_EALREADY
              (Some 1%nat) (attr_at 0xFFFE 0xFFFF)) quiet
           (advance sample_char_uuid 11 BT_GATT_DISCOVER_CHARACTERISTIC
              (walking sample_service_uuid))
         = Some (BT_GATT_ITER_STOP, g', es)
       ∧ dp_start_handle (discover_params g') = 0
       ∧ dp_start_handle (discover_params g') ≠ 0xFFFE + 2).
Proof.
  split; eexists _, _; (split_and!; [vm_compute; reflexivity | vm_compute; reflexivity | ]);
    vm_compute; discriminate.
Qed.

Lemma C3_witness :
  uuid (tracking sample_service_uuid) = sample_service_uuid
  ∧ sample_char_uuid ≠ sample_service_uuid
  ∧ Some 1%nat = default_conn (tracking sample_service_uuid)
  ∧ ans_ret (quiet O) = 0
  ∧ ∃ g0 es0 g1 es1 g2 es2,
      run (split_central_process_connection (Some 1%nat)) quiet
          (tracking sample_service_uuid)
        = Some (tt, g0, es0)
      ∧ dp_start_handle (discover_params g0) = 1
      ∧ run (split_central_discovery_func sample_service_uuid sample_char_uuid
               sample_EALREADY (Some 1%nat) (attr_at 10 0)) quiet g0
        = Some (BT_GATT_ITER_STOP, g1, es1)
      ∧ dp_start_handle (discover_params g1) = 11
      ∧ run (split_central_discovery_func sample_service_uuid sample_char_uuid
               sample_EALREADY (Some 1%nat) (attr_at 20 21)) quiet g1
        = Some (BT_GATT_ITER_STOP, g2, es2)
      ∧ dp_start_handle (discover_params g2) = 22.
Proof.
  assert (sample_char_uuid ≠ sample_service_uuid) as Hne by (vm_compute; discriminate).
  assert (0 ≤ 10) as H1 by lia. assert (10 + 1 ≤ 0xFFFF) as H1' by lia.
  assert (0 ≤ 20) as H2 by lia. assert (20 + 2 ≤ 0xFFFF) as H2' by lia.
  split_and!; [reflexivity | exact Hne | reflexivity | reflexivity |].
  destruct (C3_next_phase_starts_past_the_match
              sample_service_uuid sample_char_uuid sample_EALREADY (Some 1%nat)
              {| attr_handle := 10; attr_value_handle := 0 |}
              {| attr_handle := 20; attr_value_handle := 21 |}
              quiet quiet quiet (tracking sample_service_uuid)
              eq_refl Hne eq_refl eq_refl H1 H1' H2 H2')
    as (g0 & es0 & g1 & es1 & g2 & es2 & Hr0 & _ & Hs0 & _ & _ & _
        & Hr1 & _ & Hs1 & _ & _ & _ & Hr2 & _ & Hs2 & _).
  exists g0, es0, g1, es1, g2, es2.
  split_and!; [exact Hr0 | exact Hs0 | exact Hr1 | exact Hs1 | exact Hr2 | exact Hs2].
Defined.

(** C4 fails as stated: the walk for the characteristic is refused, the
    error is logged, and no scan is started. *)
Lemma C4_counterexample :
  ∃ g' request,
    run (split_central_discovery_func sample_service_uuid sample_char_uuid sample_EALREADY
           (Some 1%nat) (attr_at 10 0)) (answers [failed (-12)])
        (walking sample_service_uuid)
      = Some (BT_GATT_ITER_STOP, g',
              [ LOG_DBG "[ATTRIBUTE] handle %u" [10];
                call_bt_gatt_discover (Some 1%nat) (Some sample_char_uuid) request;
                LOG_ERR "Discover failed (err %d)" [-12] ])
    ∧ call_bt_le_scan_start
        ∉ [ LOG_DBG "[ATTRIBUTE] handle %u" [10];
            call_bt_gatt_discover (Some 1%nat) (Some sample_char_uuid) request;
            LOG_ERR "Discover failed (err %d)" [-12] ].
Proof.
  eexists _, _. split; [vm_compute; reflexivity|].
  intros Hin. repeat (apply elem_of_cons in Hin as [Hin|Hin]; [discriminate|]).
  by apply elem_of_nil in Hin.
Qed.

Lemma C4_witness :
  ∃ g' es,
    run (split_central_discovery_func sample_service_uuid sample_char_uuid sample_EALREADY
           (Some 1%nat) (attr_at 10 0)) (answers [failed (-12)])
        (walking sample_service_uuid)
      = Some (BT_GATT_ITER_STOP, g', es)
    ∧ (call_bt_le_scan_start ∉ es)
    ∧ default_conn g' = Some 1%nat.
Proof.
  destruct (C4_refused_walk_is_only_logged sample_service_uuid sample_char_uuid sample_EALREADY
              (Some 1%nat) {| attr_handle := 10; attr_value_handle := 0 |}
              (answers [failed (-12)]) (walking sample_service_uuid))
    as (g' & es & Hrun & _ & Hscan & Hconn & _);
    [vm_compute; discriminate | left; reflexivity |].
  exists g', es. split_and!; [exact Hrun | exact Hscan | exact Hconn].
Defined.



Lemma C6_witness :
  ∃ s2 es2,
    happenings sample_service_uuid sample_char_uuid sample_EALREADY
      [ (notified (Some 1%nat) (Some key_0) 16, quiet);
        (disconnected (Some 1%nat) 8, quiet);
        (notified (Some 1%nat) (Some key_0) 16, quiet) ]
      {| statics := unsubscribed subscribed; subscription := false |}
    = Some (s2, es2)
    ∧ Forall (λ e, is_subscribe e = false) es2
    ∧ raised es2 = []
    ∧ subscription s2 = false
    ∧ position_state (statics s2) = no_key.
Proof.
  destruct (C6_no_event_until_subscribed_again
              sample_service_uuid sample_char_uuid sample_EALREADY
              (Some 1%nat) 0 quiet {| statics := subscribed; subscription := true |})
    as (s1 & _ & _ & Hs1 & _ & Hoff & _ & _ & Hlater).
  assert (s1 = {| statics := unsubscribed subscribed; subscription := false |}) as ->.
  { destruct s1 as [g1 b1]. cbn in Hs1, Hoff. by rewrite Hs1, Hoff. }
  eexists _, _. split; [vm_compute; reflexivity|].
  assert (Forall (λ e, is_subscribe e = false)
            [ LOG_DBG "Disconnected: %s (reason %d)" [8];
              call_bt_conn_unref (Some 1%nat);
              call_bt_le_scan_start;
              LOG_DBG "Scanning successfully started" [] ]) as Hes
    by (repeat constructor).
  split; [exact Hes|].
  eapply (Hlater [ (notified (Some 1%nat) (Some key_0) 16, quiet);
                   (disconnected (Some 1%nat) 8, quiet);
                   (notified (Some 1%nat) (Some key_0) 16, quiet) ]);
    [vm_compute; reflexivity | exact Hes].
Defined.

Lemma C7_witness :
  ∃ g1 es1,
    run (split_central_discovery_func sample_service_uuid sample_char_uuid sample_EALREADY
           (Some 1%nat) (attr_at 22 0)) quiet subscribed
      = Some (BT_GATT_ITER_STOP, g1, es1)
    ∧ run (split_central_discovery_func sample_service_uuid sample_char_uuid sample_EALREADY
             (Some 1%nat) (attr_at 22 0)) (answers [failed (- sample_EALREADY)]) g1
      = Some (BT_GATT_ITER_STOP, g1,
              [ LOG_DBG "[ATTRIBUTE] handle %u" [22];
                call_bt_gatt_subscribe (Some 1%nat) (subscribe_params g1);
                LOG_DBG "[SUBSCRIBED]" [] ]).
Proof.
  destruct (C7_subscribing_again_changes_nothing
              sample_service_uuid sample_char_uuid sample_EALREADY
              (Some 1%nat) {| attr_handle := 22; attr_value_handle := 0 |}
              quiet (answers [failed (- sample_EALREADY)]) subscribed BT_UUID_GATT_CCC)
    as (g1 & es1 & Hrun1 & _ & _ & _ & Hrun2 & _);
    [reflexivity | vm_compute; discriminate | vm_compute; discriminate | reflexivity |].
  exists g1, es1. split; [exact Hrun1 | exact Hrun2].
Defined.

Lemma C8_witness :
  default_conn subscribed ≠ Some 7%nat
  ∧ run (split_central_disconnected (Some 7%nat) 8) quiet subscribed
    = Some (tt, subscribed, [LOG_DBG "Disconnected: %s (reason %d)" [8]]).
Proof.
  assert (default_conn subscribed ≠ Some 7%nat) as Hne by (vm_compute; discriminate).
  split; [exact Hne|].
  exact (C8_stale_disconnect_changes_nothing (Some 7%nat) 8 quiet subscribed Hne).
Defined.

Lemma C9_witness :
  run (split_central_disconnected (Some 1%nat) 8) quiet subscribed
    = Some (tt, set_default_conn None subscribed,
            [ LOG_DBG "Disconnected: %s (reason %d)" [8];
              call_bt_conn_unref (Some 1%nat);
              call_bt_le_scan_start;
              LOG_DBG "Scanning successfully started" [] ])
  ∧ run (split_central_connected (Some 1%nat) 2) quiet subscribed
    = Some (tt, set_default_conn None subscribed,
            [ LOG_ERR "Failed to connect to %s (%u)" [2];
              call_bt_conn_unref (Some 1%nat);
              call_bt_le_scan_start;
              LOG_DBG "Scanning successfully started" [] ]).
Proof.
  destruct (C9_lost_connection_resumes_scanning (Some 1%nat) 8 2 quiet subscribed)
    as (Hdis & Hconn & _).
  split; [apply Hdis; reflexivity | apply Hconn; vm_compute; discriminate].
Defined.




(** ** The further properties at sample inputs *)

Lemma X1_witness :
  (16 ≤ length key_0)%nat ∧ length (position_state subscribed) = 16%nat
  ∧ ∃ g1 es1,
      run (split_central_notify_func (Some 1%nat) (Some key_0) 16) quiet subscribed
        = Some (BT_GATT_ITER_CONTINUE, g1, es1)
      ∧ ∃ es2,
          run (split_central_notify_func (Some 1%nat) (Some key_0) 16) quiet g1
            = Some (BT_GATT_ITER_CONTINUE, g1, es2)
          ∧ raised es2 = [].
Proof.
  assert (16 ≤ length key_0)%nat as Hp by (vm_compute; lia).
  assert (length (position_state subscribed) = 16%nat) as Hg by reflexivity.
  split_and!; [exact Hp | exact Hg |].
  destruct (X1_repeated_payload_raises_nothing (Some 1%nat) key_0 16 quiet subscribed Hp Hg)
    as (g1 & es1 & Hrun & Hnext).
  exists g1, es1. split; [exact Hrun|]. exact (Hnext (Some 1%nat) 16 quiet).
Defined.

Lemma X2_witness :
  length no_key = 16%nat ∧ length key_0 = 16%nat ∧ position_state subscribed = no_key
  ∧ ∃ g1 es1,
      run (split_central_notify_func (Some 1%nat) (Some key_0) 16) quiet subscribed
        = Some (BT_GATT_ITER_CONTINUE, g1, es1)
      ∧ ∃ g2 es2,
          run (split_central_notify_func (Some 1%nat) (Some no_key) 16) quiet g1
            = Some (BT_GATT_ITER_CONTINUE, g2, es2)
          ∧ raised es2 = opposite <$> raised es1.
Proof.
  split_and!; [reflexivity | reflexivity | reflexivity |].
  destruct (X2_going_back_raises_the_opposite_changes
              (Some 1%nat) no_key key_0 16 quiet subscribed eq_refl eq_refl eq_refl)
    as (g1 & es1 & Hrun & Hnext).
  exists g1, es1. split; [exact Hrun|]. exact (Hnext (Some 1%nat) 16 quiet).
Defined.

Lemma X3_witness :
  (16 ≤ length key_0)%nat ∧ length (position_state subscribed) = 16%nat
  ∧ ∃ g' es,
      run (split_central_notify_func (Some 1%nat) (Some key_0) 16) quiet subscribed
        = Some (BT_GATT_ITER_CONTINUE, g', es)
      ∧ (length (raised es) ≤ 128)%nat
      ∧ ∀ ev, ev ∈ raised es → 0 ≤ position ev ≤ 127.
Proof.
  assert (16 ≤ length key_0)%nat as Hp by (vm_compute; lia).
  assert (length (position_state subscribed) = 16%nat) as Hg by reflexivity.
  split_and!; [exact Hp | exact Hg |].
  exact (X3_raised_positions_are_key_positions (Some 1%nat) key_0 16 quiet subscribed Hp Hg).
Defined.

Lemma X5_witness :
  target_uuid (walking sample_service_uuid) = Some sample_service_uuid
  ∧ sample_char_uuid ≠ sample_service_uuid
  ∧ BT_UUID_GATT_CCC ≠ sample_service_uuid
  ∧ BT_UUID_GATT_CCC ≠ sample_char_uuid
  ∧ ∃ g1 es1 g2 es2 g3 es3,
      run (split_central_discovery_func sample_service_uuid sample_char_uuid sample_EALREADY
             (Some 1%nat) (attr_at 10 0)) quiet (walking sample_service_uuid)
        = Some (BT_GATT_ITER_STOP, g1, es1)
      ∧ run (split_central_discovery_func sample_service_uuid sample_char_uuid sample_EALREADY
               (Some 1%nat) (attr_at 20 21)) quiet g1
        = Some (BT_GATT_ITER_STOP, g2, es2)
      ∧ run (split_central_discovery_func sample_service_uuid sample_char_uuid sample_EALREADY
               (Some 1%nat) (attr_at 22 0)) quiet g2
        = Some (BT_GATT_ITER_STOP, g3, es3)
      ∧ sp_value_handle (subscribe_params g3) = 21
      ∧ sp_ccc_handle (subscribe_params g3) = 22.
Proof.
  assert (target_uuid (walking sample_service_uuid) = Some sample_service_uuid)
    as Ht by reflexivity.
  assert (sample_char_uuid ≠ sample_service_uuid) as H1 by (vm_compute; discriminate).
  assert (BT_UUID_GATT_CCC ≠ sample_service_uuid) as H2 by (vm_compute; discriminate).
  assert (BT_UUID_GATT_CCC ≠ sample_char_uuid) as H3 by (vm_compute; discriminate).
  split_and!; [exact Ht | exact H1 | exact H2 | exact H3 |].
  destruct (X5_three_reports_subscribe sample_service_uuid sample_char_uuid sample_EALREADY
              (Some 1%nat)
              {| attr_handle := 10; attr_value_handle := 0 |}
              {| attr_handle := 20; attr_value_handle := 21 |}
              {| attr_handle := 22; attr_value_handle := 0 |}
              quiet quiet quiet (walking sample_service_uuid) Ht H1 H2 H3)
    as (g1 & g2 & g3 & Hr1 & _ & Hr2 & _ & Hr3 & _ & _ & Hsp & _).
  eexists g1, _, g2, _, g3, _.
  split_and!; [exact Hr1 | exact Hr2 | exact Hr3 | by rewrite Hsp | by rewrite Hsp].
Defined.

Lemma X6_witness :
  ans_ret (quiet O) = 0 ∧ Some 1%nat = default_conn subscribed
  ∧ ∃ es,
      run (split_central_process_connection (Some 1%nat)) quiet subscribed
        = Some (tt, primary_walk subscribed, es)
      ∧ call_bt_gatt_discover (Some 1%nat) (Some (uuid subscribed))
          (discover_params (primary_walk subscribed)) ∈ es.
Proof.
  split_and!; [reflexivity | reflexivity |].
  destruct (X6_walk_starts_only_on_the_secured_tracked_connection
              (Some 1%nat) quiet subscribed)
    as (g' & es & Hrun & _ & Hwalk & _).
  destruct (Hwalk eq_refl eq_refl) as [Hg Hin].
  exists es. split; [by rewrite <- Hg | exact Hin].
Defined.

Lemma X7_witness :
  Some 1%nat = default_conn subscribed
  ∧ ans_ret (answers [ok; failed (-12)] O) = 0
  ∧ ans_ret (answers [ok; failed (-12)] 1%nat) ≠ 0
  ∧ run (split_central_process_connection (Some 1%nat))
        (answers [ok; failed (-12)]) subscribed
    = Some (tt, primary_walk subscribed,
            [ LOG_DBG "Current security for connection: %d" [];
              call_bt_conn_set_security (Some 1%nat) BT_SECURITY_L2;
              call_bt_gatt_discover (Some 1%nat) (Some BT_UUID_GATT_CCC)
                (discover_params (primary_walk subscribed));
              LOG_ERR "Discover failed(err %d)" [-12] ]).
Proof.
  assert (ans_ret (answers [ok; failed (-12)] 1%nat) ≠ 0) as Hne by (vm_compute; discriminate).
  split_and!; [reflexivity | reflexivity | exact Hne |].
  exact (X7_refused_first_walk_is_only_logged
           (Some 1%nat) (answers [ok; failed (-12)]) subscribed eq_refl eq_refl Hne).
Defined.

Lemma X8_witness :
  ∃ g' es,
    deliver sample_service_uuid sample_char_uuid sample_EALREADY
      (connected (Some 1%nat) 0) quiet (tracking sample_service_uuid)
    = Some (g', es)
    ∧ Forall (λ e, footprint (connected (Some 1%nat) 0) e = true) es.
Proof.
  eexists _, _. split; [vm_compute; reflexivity|].
  eapply (X8_calls_of_each_callback sample_service_uuid sample_char_uuid sample_EALREADY
            (connected (Some 1%nat) 0) quiet (tracking sample_service_uuid)).
  vm_compute. reflexivity.
Defined.

Lemma X9_witness :
  ∃ g' es,
    deliver sample_service_uuid sample_char_uuid sample_EALREADY
      (discovered (Some 1%nat) (attr_at 10 0)) quiet (walking sample_service_uuid)
    = Some (g', es)
    ∧ leaves (discovered (Some 1%nat) (attr_at 10 0)) (walking sample_service_uuid) g'.
Proof.
  eexists _, _. split; [vm_compute; reflexivity|].
  eapply (X9_statics_of_each_callback sample_service_uuid sample_char_uuid sample_EALREADY
            (discovered (Some 1%nat) (attr_at 10 0)) quiet (walking sample_service_uuid)).
  vm_compute. reflexivity.
Defined.

Lemma X10_witness :
  no_payload (disconnected (Some 1%nat) 8) = true
  ∧ ∃ g' es,
      deliver sample_service_uuid sample_char_uuid sample_EALREADY
        (disconnected (Some 1%nat) 8) quiet subscribed
      = Some (g', es)
      ∧ raised es = [].
Proof.
  split; [reflexivity|].
  eexists _, _. split; [vm_compute; reflexivity|].
  eapply (X10_events_only_from_payloads sample_service_uuid sample_char_uuid sample_EALREADY
            (disconnected (Some 1%nat) 8) quiet subscribed); [reflexivity|].
  vm_compute. reflexivity.
Defined.

Lemma X11_witness :
  sample_char_uuid ≠ sample_service_uuid
  ∧ BT_UUID_GATT_CCC ≠ sample_service_uuid
  ∧ after sample_service_uuid sample_char_uuid sample_EALREADY
      [ (disconnected (Some 1%nat) 8, quiet);
        (connected (Some 1%nat) 0, quiet) ] subscribed
    = Some (set_default_conn None subscribed)
  ∧ uuid subscribed ≠ sample_service_uuid
  ∧ uuid (set_default_conn None subscribed) ≠ sample_service_uuid.
Proof.
  assert (sample_char_uuid ≠ sample_service_uuid) as H1 by (vm_compute; discriminate).
  assert (BT_UUID_GATT_CCC ≠ sample_service_uuid) as H2 by (vm_compute; discriminate).
  assert (uuid subscribed ≠ sample_service_uuid) as H3 by (vm_compute; discriminate).
  assert (after sample_service_uuid sample_char_uuid sample_EALREADY
            [ (disconnected (Some 1%nat) 8, quiet);
              (connected (Some 1%nat) 0, quiet) ] subscribed
          = Some (set_default_conn None subscribed))
    as Hafter by (vm_compute; reflexivity).
  split_and!; [exact H1 | exact H2 | exact Hafter | exact H3 |].
  destruct (X11_target_never_returns_to_the_service
              sample_service_uuid sample_char_uuid sample_EALREADY H1 H2)
    as (_ & _ & Hall).
  exact (Hall _ _ _ Hafter H3).
Defined.

Lemma X12_witness :
  ∃ g' es,
    deliver sample_service_uuid sample_char_uuid sample_EALREADY
      (discovered (Some 1%nat) (attr_at 22 0)) quiet subscribed
    = Some (g', es)
    ∧ Exists (λ e, is_subscribe e = true) es
    ∧ ∃ conn attr u,
        discovered (Some 1%nat) (attr_at 22 0) = discovered conn (Some attr)
        ∧ target_uuid subscribed = Some u
        ∧ u ≠ sample_service_uuid
        ∧ u ≠ sample_char_uuid.
Proof.
  eexists _, _. split; [vm_compute; reflexivity|].
  assert (Exists (λ e, is_subscribe e = true)
            [ LOG_DBG "[ATTRIBUTE] handle %u" [22];
              call_bt_gatt_subscribe (Some 1%nat)
                {| sp_notify := addr_of_split_central_notify_func;
                   sp_value_handle := 21; sp_ccc_handle := 22;
                   sp_value := BT_GATT_CCC_NOTIFY |};
              LOG_DBG "[SUBSCRIBED]" [] ]) as Hex.
  { apply Exists_cons_tl, Exists_cons_hd. reflexivity. }
  split; [exact Hex|].
  eapply (X12_subscribe_only_past_the_characteristic
            sample_service_uuid sample_char_uuid sample_EALREADY
            (discovered (Some 1%nat) (attr_at 22 0)) quiet subscribed);
    [vm_compute; reflexivity | exact Hex].
Defined.

Lemma X13_witness :
  uuid subscribed = BT_UUID_GATT_CCC
  ∧ BT_UUID_GATT_CCC ≠ sample_service_uuid
  ∧ BT_UUID_GATT_CCC ≠ sample_char_uuid
  ∧ default_conn subscribed = Some 1%nat
  ∧ ans_ret (quiet O) = 0
  ∧ ∃ g1 es1,
      run (split_central_connected (Some 1%nat) 0) quiet subscribed = Some (tt, g1, es1)
      ∧ ∃ g2,
          run (split_central_discovery_func sample_service_uuid sample_char_uuid
                 sample_EALREADY (Some 1%nat) (attr_at 10 0)) quiet g1
          = Some (BT_GATT_ITER_STOP, g2,
                  [ LOG_DBG "[ATTRIBUTE] handle %u" [10];
                    call_bt_gatt_subscribe (Some 1%nat)
                      {| sp_notify := addr_of_split_central_notify_func;
                         sp_value_handle := 21;
                         sp_ccc_handle := 10;
                         sp_value := BT_GATT_CCC_NOTIFY |};
                    LOG_DBG "[SUBSCRIBED]" [] ])
          ∧ uuid g2 = BT_UUID_GATT_CCC.
Proof.
  assert (BT_UUID_GATT_CCC ≠ sample_service_uuid) as H1 by (vm_compute; discriminate).
  assert (BT_UUID_GATT_CCC ≠ sample_char_uuid) as H2 by (vm_compute; discriminate).
  split_and!; [reflexivity | exact H1 | exact H2 | reflexivity | reflexivity |].
  destruct (X13_reconnect_subscribes_on_the_first_report
              sample_service_uuid sample_char_uuid sample_EALREADY
              (Some 1%nat) quiet subscribed BT_UUID_GATT_CCC
              eq_refl H1 H2 eq_refl eq_refl)
    as (g1 & es1 & Hrun & _ & Hnext).
  exists g1, es1. split; [exact Hrun|].
  exact (Hnext (Some 1%nat) {| attr_handle := 10; attr_value_handle := 0 |} quiet).
Defined.

Lemma X14_witness :
  default_conn subscribed = Some 1%nat
  ∧ ∃ g1 es1,
      run (split_central_disconnected (Some 1%nat) 8) quiet subscribed = Some (tt, g1, es1)
      ∧ default_conn g1 = None
      ∧ run (split_central_disconnected (Some 1%nat) 8) quiet g1
        = Some (tt, g1, [LOG_DBG "Disconnected: %s (reason %d)" [8]]).
Proof.
  split; [reflexivity|].
  destruct (X14_second_disconnect_does_nothing 1%nat 8 quiet subscribed eq_refl)
    as (g1 & es1 & Hrun & Hnone & Hnext).
  exists g1, es1. split_and!; [exact Hrun | exact Hnone | exact (Hnext 8 quiet)].
Defined.

Lemma X15_witness :
  length (position_state subscribed) = 16%nat
  ∧ run (split_central_notify_func (Some 1%nat) (Some [1; 0; 0]) 3) quiet subscribed = None.
Proof.
  split; [reflexivity|].
  destruct (X15_short_payload_is_read_past_its_end
              (Some 1%nat) [1; 0; 0] 3 quiet subscribed eq_refl) as [Hdef _].
  destruct (run (split_central_notify_func (Some 1%nat) (Some [1; 0; 0]) 3) quiet subscribed)
    as [r|] eqn:Hrun; [|reflexivity].
  exfalso. assert (16 ≤ 3)%nat as Hle by (apply Hdef; by eexists). lia.
Defined.

Lemma X16_witness :
  after sample_service_uuid sample_char_uuid sample_EALREADY
    [ (connected (Some 1%nat) 0, quiet);
      (notified (Some 1%nat) (Some key_0) 16, quiet) ]
    (startup sample_service_uuid)
  = Some (set_position_state key_0 (startup sample_service_uuid))
  ∧ bitmap_ok (set_position_state key_0 (startup sample_service_uuid)).
Proof.
  assert (after sample_service_uuid sample_char_uuid sample_EALREADY
            [ (connected (Some 1%nat) 0, quiet);
              (notified (Some 1%nat) (Some key_0) 16, quiet) ]
            (startup sample_service_uuid)
          = Some (set_position_state key_0 (startup sample_service_uuid)))
    as Hafter by (vm_compute; reflexivity).
  split; [exact Hafter|].
  destruct (X16_bitmap_stays_sixteen_bytes sample_service_uuid sample_char_uuid sample_EALREADY)
    as (_ & _ & Hall).
  exact (Hall _ _ Hafter).
Defined.

Lemma X17_witness :
  Z.of_nat (length (ad_data malformed_advert)) mod 16 ≠ 0
  ∧ run (split_central_eir_found sample_service_uuid malformed_advert peer) quiet
        (startup sample_service_uuid)
    = Some (true, startup sample_service_uuid,
            [ LOG_DBG "[AD]: %u data_len %u" [BT_DATA_UUID128_ALL; 17];
              LOG_ERR "AD malformed" [] ]).
Proof.
  assert (Z.of_nat (length (ad_data malformed_advert)) mod 16 ≠ 0)
    as Hne by (vm_compute; discriminate).
  split; [exact Hne|].
  exact (X17_unusable_element_is_passed_over sample_service_uuid malformed_advert peer quiet
           (startup sample_service_uuid) (or_intror Hne)).
Defined.

Lemma X18_witness :
  is_uuid128 advert = true
  ∧ length (ad_data advert) = (16 * 1)%nat
  ∧ run (split_central_eir_found sample_service_uuid advert peer) quiet
        (startup sample_service_uuid)
    = None.
Proof.
  split_and!; [reflexivity | reflexivity |].
  destruct (X18_element_with_a_uuid_overflows_the_local sample_service_uuid advert peer quiet
              (startup sample_service_uuid) 0%nat eq_refl eq_refl) as [_ Hrun].
  exact Hrun.
Defined.

Lemma X19_witness :
  ∃ r g' es,
    run (split_central_eir_found sample_service_uuid empty_advert peer) quiet
        (startup sample_service_uuid)
    = Some (r, g', es)
    ∧ r = true ∧ g' = startup sample_service_uuid
    ∧ Forall (λ e, is_log e = true) es.
Proof.
  eexists _, _, _. split; [vm_compute; reflexivity|].
  destruct (X19_defined_runs_only_log sample_service_uuid empty_advert peer quiet
              (startup sample_service_uuid)) as [_ Hdef].
  apply Hdef. vm_compute. reflexivity.
Defined.

Lemma X20_witness :
  after sample_service_uuid sample_char_uuid sample_EALREADY
    [ (eir_found malformed_advert peer, quiet);
      (connected (Some 1%nat) 0, quiet);
      (disconnected (Some 1%nat) 8, quiet) ]
    (startup sample_service_uuid)
  = Some (startup sample_service_uuid)
  ∧ default_conn (startup sample_service_uuid) = None.
Proof.
  assert (after sample_service_uuid sample_char_uuid sample_EALREADY
            [ (eir_found malformed_advert peer, quiet);
              (connected (Some 1%nat) 0, quiet);
              (disconnected (Some 1%nat) 8, quiet) ]
            (startup sample_service_uuid)
          = Some (startup sample_service_uuid)) as Hafter by (vm_compute; reflexivity).
  split; [exact Hafter|].
  destruct (X20_no_connection_is_tracked sample_service_uuid sample_char_uuid sample_EALREADY)
    as (_ & _ & Hall).
  exact (Hall _ _ Hafter).
Defined.



Lemma X23_witness :
  3 ≠ BT_GAP_ADV_TYPE_ADV_IND ∧ 3 ≠ BT_GAP_ADV_TYPE_ADV_DIRECT_IND
  ∧ run (split_central_device_found sample_service_uuid idle_parser peer (-40) 3 [2; 1; 6])
        quiet (startup sample_service_uuid)
    = Some (tt, startup sample_service_uuid,
            [ LOG_DBG "[DEVICE]: %s, AD evt type %u, AD data len %u, RSSI %i"
                [3; 3; -40] ]).
Proof.
  assert (3 ≠ BT_GAP_ADV_TYPE_ADV_IND) as H1 by (vm_compute; discriminate).
  assert (3 ≠ BT_GAP_ADV_TYPE_ADV_DIRECT_IND) as H2 by (vm_compute; discriminate).
  split_and!; [exact H1 | exact H2 |].
  exact (X23_other_advertisements_are_ignored sample_service_uuid idle_parser peer (-40) 3
           [2; 1; 6] quiet (startup sample_service_uuid) H1 H2).
Defined.
